(** * cohere-reverse-proxy: the forwarding engine and the server lifecycle

    A shallow embedding of [internal.NewProxy] (src/main.go, second
    document) and of [internal.Server] (src/unnamed/part_000), together
    with the parts of the Go standard library they configure and call:
    [net.SplitHostPort], [net/url] escaping and query re-encoding,
    [net/textproto] header canonicalisation, the request path of
    [httputil.ReverseProxy.ServeHTTP] with its [Rewrite] hook
    ([ProxyRequest.SetXForwarded], [ProxyRequest.SetURL]), the relay of
    the response with the flushes of its body copy ([copyResponse],
    [maxLatencyWriter]), and the accept loop and the polls of
    [http.Server.Serve] and [http.Server.Shutdown].

    Go packages are Rocq modules of the same name.  A Go [string] is a
    sequence of bytes, here a [string] of [ascii]; a [time.Duration] is a
    number of nanoseconds in [Z]; a [map[string][]string] is a
    [gmap string (list string)]; a nil pointer or nil interface is [None].
    The network is not part of the program: what [net.Listen], the accept
    loop and the origin answer is an input of the model, and so are the
    times at which the origin's body arrives and the draws of
    [math/rand]. *)

From stdpp Require Import gmap strings list sorting.
From Stdlib Require Import ZArith Ascii String Lia.

Local Open Scope string_scope.
Local Open Scope Z_scope.

(** ** Byte strings: the [strings] package and Go's slicing *)

Module strings.

(** [strings.HasPrefix(s, prefix)] *)
Fixpoint HasPrefix (s pre : string) {struct pre} : bool :=
  match pre, s with
  | EmptyString, _ => true
  | String _ _, EmptyString => false
  | String a pre', String b s' => Ascii.eqb b a && HasPrefix s' pre'
  end.

(** [strings.HasSuffix(s, suffix)] *)
Definition HasSuffix (s suf : string) : bool :=
  let n := String.length s in
  let m := String.length suf in
  if (m <=? n)%nat then String.eqb (String.substring (n - m) m s) suf
  else false.

(** [s[1:]] on a non-empty string (on the empty one Go panics; every
    use below is guarded by [HasPrefix s "/"]). *)
Definition tail (s : string) : string :=
  match s with
  | EmptyString => EmptyString
  | String _ r => r
  end.

(** [strings.IndexByte(s, c)], [None] for -1 *)
Fixpoint IndexByte (s : string) (c : ascii) : option nat :=
  match s with
  | EmptyString => None
  | String a r =>
      if Ascii.eqb a c then Some 0%nat
      else match IndexByte r c with
           | Some i => Some (S i)
           | None => None
           end
  end.

(** [strings.LastIndexByte(s, c)], [None] for -1 *)
Fixpoint LastIndexByte (s : string) (c : ascii) : option nat :=
  match s with
  | EmptyString => None
  | String a r =>
      match LastIndexByte r c with
      | Some i => Some (S i)
      | None => if Ascii.eqb a c then Some 0%nat else None
      end
  end.

(** [s[:i]] and [s[i:]] *)
Definition take (i : nat) (s : string) : string := String.substring 0 i s.
Definition drop (i : nat) (s : string) : string :=
  String.substring i (String.length s - i) s.

(** [strings.Contains(s, string(c))] for a single byte *)
Definition ContainsByte (s : string) (c : ascii) : bool :=
  match IndexByte s c with Some _ => true | None => false end.

(** [strings.Cut(s, string(c))] for a one-byte separator: the text
    before and after the first [c], and whether [c] was found. *)
Fixpoint Cut (s : string) (c : ascii) : string * string * bool :=
  match s with
  | EmptyString => (EmptyString, EmptyString, false)
  | String a r =>
      if Ascii.eqb a c then (EmptyString, r, true)
      else let '(b, e, f) := Cut r c in (String a b, e, f)
  end.

(** [strings.Split(s, string(c))] for a one-byte separator *)
Fixpoint Split (s : string) (c : ascii) : list string :=
  match s with
  | EmptyString => [EmptyString]
  | String a r =>
      if Ascii.eqb a c then EmptyString :: Split r c
      else match Split r c with
           | [] => [String a EmptyString]
           | w :: ws => String a w :: ws
           end
  end.

(** [strings.Join(elems, sep)] *)
Fixpoint Join (elems : list string) (sep : string) : string :=
  match elems with
  | [] => EmptyString
  | [e] => e
  | e :: es => e +:+ sep +:+ Join es sep
  end.

End strings.

(** ** [time] *)

Module time.

(** [type Duration int64], in nanoseconds.  The products below are
    constant expressions well inside the 64-bit range. *)
Definition Duration : Type := Z.

Definition Nanosecond : Duration := 1.
Definition Microsecond : Duration := 1000 * Nanosecond.
Definition Millisecond : Duration := 1000 * Microsecond.
Definition Second : Duration := 1000 * Millisecond.

End time.

(** ** Error values *)

(** The dynamic error values that occur: the sentinel
    [http.ErrServerClosed], [errors.New]/[fmt.Errorf] strings,
    [*net.AddrError], an error reported by the operating system's
    network stack (its message and the answer of its [Temporary()]
    method), [context.DeadlineExceeded] and [context.Canceled]. *)
Inductive error_value : Type :=
| ErrServerClosed
| errorString (s : string)
| AddrError (Err Addr : string)
| OpError (msg : string) (temporary : bool)
| DeadlineExceeded
| Canceled.

(** The [Error()] method. *)
Definition Error (e : error_value) : string :=
  match e with
  | ErrServerClosed => "http: Server closed"
  | errorString s => s
  | AddrError why addr =>
      if String.eqb addr "" then why else "address " +:+ addr +:+ ": " +:+ why
  | OpError msg _ => msg
  | DeadlineExceeded => "context deadline exceeded"
  | Canceled => "context canceled"
  end.

(** [ne, ok := err.(net.Error); ok && ne.Temporary()] *)
Definition Temporary (e : error_value) : bool :=
  match e with
  | OpError _ t => t
  | _ => false
  end.

(** A Go [error] is an interface value: [None] is [nil]. *)
Definition error : Type := option error_value.

(** How a call ends: it returns, it panics, or (for the accept loop) it
    is still blocked when the observed events run out. *)
Inductive outcome (A : Type) : Type :=
| Returned (a : A)
| Panicked (msg : string)
| Blocked.
Arguments Returned {A} a.
Arguments Panicked {A} msg.
Arguments Blocked {A}.

(** The runtime error of a method call through a nil interface or pointer. *)
Definition nil_dereference : string :=
  "runtime error: invalid memory address or nil pointer dereference".

(** ** [context] *)

Module context.

(** A [context.Context], as far as a wait on it can tell: it is never
    done ([context.Background()]), or it is done [after] a time from
    now, by its deadline or by its owner, and [ctx.Err()] is then
    [err] ([DeadlineExceeded] or [Canceled]).  A context that is done
    already has an [after] that is zero or negative. *)
Inductive Context : Type :=
| Background
| DoneAfter (after : time.Duration) (err : error_value).

(** [ctx, cancel := context.WithTimeout(parent, timeout)]: done when
    the parent is, and after [timeout] at the latest. *)
Definition WithTimeout (parent : Context) (timeout : time.Duration)
  : Context :=
  match parent with
  | Background => DoneAfter timeout DeadlineExceeded
  | DoneAfter after err =>
      if after <? timeout then DoneAfter after err
      else DoneAfter timeout DeadlineExceeded
  end.

(** A wait on [ctx.Done()] that lasts until [until]: the time at which
    the context is done and [ctx.Err()], if it is done by then. *)
Definition Done (ctx : Context) (until : time.Duration)
  : option (time.Duration * error_value) :=
  match ctx with
  | Background => None
  | DoneAfter after err =>
      if after <=? until then Some (after, err) else None
  end.

End context.

(** ** [math/rand] *)

Module rand.

(** The generator behind the top-level functions of the package: what
    its successive calls draw is not decided by the program. *)
Class Source : Type :=
  draw : nat -> Z.

(** [rand.Intn(n)], for the call numbered [call] and a positive [n]:
    a number from 0 up to [n], [n] left out. *)
Definition Intn `{Source} (call : nat) (n : Z) : Z :=
  draw call `mod` n.

End rand.

(** ** [fmt] *)

Module fmt.

(** [fmt.Sprintf(format, args...)] for string operands: [%s] and [%v]
    print the next operand, [%%] a percent sign; an operand that is
    missing prints as Go prints it. *)
Fixpoint Sprintf (format : string) (args : list string) : string :=
  match format with
  | EmptyString => EmptyString
  | String "%" (String "s" r) =>
      match args with
      | a :: args' => a +:+ Sprintf r args'
      | [] => "%!s(MISSING)" +:+ Sprintf r []
      end
  | String "%" (String "v" r) =>
      match args with
      | a :: args' => a +:+ Sprintf r args'
      | [] => "%!v(MISSING)" +:+ Sprintf r []
      end
  | String "%" (String "%" r) => String "%" (Sprintf r args)
  | String c r => String c (Sprintf r args)
  end.

End fmt.

(** ** [net] *)

Module net.

(** A bound [net.Listener]; [Addr] is [l.Addr().String()], the
    resolved address (with the port the system chose for ":0"). *)
Record Listener : Type := { Addr : string }.

(** [net.Dialer], the two fields the proxy sets. *)
Record Dialer : Type := {
  Timeout : time.Duration;
  KeepAlive : time.Duration
}.

(** [net.Listen(network, address)]: whether the operating system
    grants the address, and which one it resolves to, is its answer. *)
Class Network : Type :=
  Listen : string -> string -> Listener + error_value.

Definition missingPort : string := "missing port in address".
Definition tooManyColons : string := "too many colons in address".

(** [net.SplitHostPort]: splits "host:port", "[host]:port" into host
    and port at the last colon. *)
Definition SplitHostPort (hostport : string)
  : (string * string) + error_value :=
  let addrErr (why : string) : (string * string) + error_value :=
    inr (AddrError why hostport) in
  match strings.LastIndexByte hostport ":" with
  | None => addrErr missingPort
  | Some i =>
      let bracketed : (string * nat * nat) + string :=
        if strings.HasPrefix hostport "[" then
          match strings.IndexByte hostport "]" with
          | None => inr "missing ']' in address"
          | Some end_ =>
              if (end_ + 1 =? String.length hostport)%nat then
                inr missingPort
              else if (end_ + 1 =? i)%nat then
                inl (String.substring 1 (end_ - 1) hostport,
                     1%nat, (end_ + 1)%nat)
              else
                match String.get (end_ + 1) hostport with
                | Some ":"%char => inr tooManyColons
                | _ => inr missingPort
                end
          end
        else
          let host := strings.take i hostport in
          if strings.ContainsByte host ":" then inr tooManyColons
          else inl (host, 0%nat, 0%nat) in
      match bracketed with
      | inr why => addrErr why
      | inl (host, j, k) =>
          if strings.ContainsByte (strings.drop j hostport) "[" then
            addrErr "unexpected '[' in address"
          else if strings.ContainsByte (strings.drop k hostport) "]" then
            addrErr "unexpected ']' in address"
          else inl (host, strings.drop (i + 1) hostport)
      end
  end.

End net.

(** ** [net/url] *)

Module url.

(** [url.URL], the fields the proxy reads or writes. *)
Record URL : Type := {
  Scheme : string;
  Host : string;
  Path : string;
  RawPath : string;
  RawQuery : string
}.

Definition between (lo hi c : ascii) : bool :=
  Ascii.leb lo c && Ascii.leb c hi.

Definition ishex (c : ascii) : bool :=
  between "0" "9" c || between "a" "f" c || between "A" "F" c.

Definition unhex (c : ascii) : N :=
  let n := N_of_ascii c in
  if between "0" "9" c then (n - N_of_ascii "0")%N
  else if between "a" "f" c then (n - N_of_ascii "a" + 10)%N
  else if between "A" "F" c then (n - N_of_ascii "A" + 10)%N
  else 0%N.

(** The two of the package's escaping modes that are reached from the
    proxy. *)
Inductive encoding : Type := encodePath | encodeQueryComponent.

Definition is_in (c : ascii) (set : string) : bool :=
  strings.ContainsByte set c.

(** [shouldEscape(c, mode)] *)
Definition shouldEscape (c : ascii) (mode : encoding) : bool :=
  if between "a" "z" c || between "A" "Z" c || between "0" "9" c then false
  else if is_in c "-_.~" then false
  else if is_in c "$&+,/:;=?@" then
    match mode with
    | encodePath => Ascii.eqb c "?"
    | encodeQueryComponent => true
    end
  else true.

(** [unescape(s, mode)]: [None] is the [EscapeError] of a percent sign
    that is not followed by two hexadecimal digits. *)
Fixpoint unescape (s : string) (mode : encoding) : option string :=
  match s with
  | EmptyString => Some EmptyString
  | String "%" r =>
      match r with
      | String h1 (String h2 r') =>
          if ishex h1 && ishex h2 then
            match unescape r' mode with
            | Some t =>
                Some (String (ascii_of_N (unhex h1 * 16 + unhex h2)) t)
            | None => None
            end
          else None
      | _ => None
      end
  | String "+" r =>
      match unescape r mode with
      | Some t =>
          Some (String (match mode with
                        | encodeQueryComponent => " "%char
                        | encodePath => "+"%char
                        end) t)
      | None => None
      end
  | String c r =>
      match unescape r mode with
      | Some t => Some (String c t)
      | None => None
      end
  end.

Definition upperhex : string := "0123456789ABCDEF".

Definition hexdigit (n : N) : ascii :=
  match String.get (N.to_nat n) upperhex with
  | Some d => d
  | None => "0"%char
  end.

(** [escape(s, mode)] *)
Fixpoint escape (s : string) (mode : encoding) : string :=
  match s with
  | EmptyString => EmptyString
  | String c r =>
      if shouldEscape c mode then
        match c, mode with
        | " "%char, encodeQueryComponent => String "+" (escape r mode)
        | _, _ =>
            String "%" (String (hexdigit (N_of_ascii c / 16))
                         (String (hexdigit (N_of_ascii c mod 16))
                            (escape r mode)))
        end
      else String c (escape r mode)
  end.

(** [validEncoded(s, mode)] *)
Fixpoint validEncoded (s : string) (mode : encoding) : bool :=
  match s with
  | EmptyString => true
  | String c r =>
      (is_in c "!$&'()*+,;=:@[]%" || negb (shouldEscape c mode))
      && validEncoded r mode
  end.

(** The [EscapedPath] method of a URL *)
Definition EscapedPath (u : URL) : string :=
  let usable :=
    if negb (String.eqb (RawPath u) "") && validEncoded (RawPath u) encodePath
    then match unescape (RawPath u) encodePath with
         | Some p => String.eqb p (Path u)
         | None => false
         end
    else false in
  if usable then RawPath u
  else if String.eqb (Path u) "*" then "*"
  else escape (Path u) encodePath.

Definition QueryUnescape (s : string) : option string :=
  unescape s encodeQueryComponent.
Definition QueryEscape (s : string) : string :=
  escape s encodeQueryComponent.

(** [url.Values], a [map[string][]string] *)
Abbreviation Values := (gmap string (list string)).

(** One round of the loop of [parseQuery]: a segment between
    ampersands.  A segment with a semicolon, an empty one, and one
    whose key or value does not unescape are skipped (the error they
    set is dropped by the only caller below). *)
Definition parseQuery_segment (m : Values) (seg : string) : Values :=
  if strings.ContainsByte seg ";" then m
  else if String.eqb seg "" then m
  else
    let '(key, value, _) := strings.Cut seg "=" in
    match QueryUnescape key with
    | None => m
    | Some key =>
        match QueryUnescape value with
        | None => m
        | Some value => <[key := (default [] (m !! key) ++ [value])%list]> m
        end
    end.

(** [v, _ := url.ParseQuery(query)].  The loop cuts the query at each
    ampersand; the segments are those of [strings.Split], the empty
    ones being skipped. *)
Definition ParseQuery (query : string) : Values :=
  foldl parseQuery_segment ∅ (strings.Split query "&").

(** [(Values).Encode]: "k=v" pairs joined by ampersands, keys in
    sorted order. *)
Definition Encode (v : Values) : string :=
  let keys := merge_sort String.le (map fst (map_to_list v)) in
  strings.Join
    (flat_map (fun k =>
                 map (fun x => QueryEscape k +:+ "=" +:+ QueryEscape x)
                     (default [] (v !! k)))
              keys)
    "&".

End url.

(** ** [net/textproto] and [golang.org/x/net/http/httpguts] *)

Module textproto.

(** [validHeaderFieldByte]: the token characters of RFC 7230. *)
Definition validHeaderFieldByte (c : ascii) : bool :=
  url.between "a" "z" c || url.between "A" "Z" c || url.between "0" "9" c
  || url.is_in c "!#$%&'*+-.^_`|~".

Definition toUpper (c : ascii) : ascii :=
  if url.between "a" "z" c then ascii_of_N (N_of_ascii c - 32) else c.
Definition toLower (c : ascii) : ascii :=
  if url.between "A" "Z" c then ascii_of_N (N_of_ascii c + 32) else c.

Fixpoint allValid (s : string) : bool :=
  match s with
  | EmptyString => true
  | String c r => validHeaderFieldByte c && allValid r
  end.

(** The second loop of [canonicalMIMEHeaderKey]: upper case for the
    first letter and after each dash, lower case elsewhere. *)
Fixpoint canonicalise (upper : bool) (s : string) : string :=
  match s with
  | EmptyString => EmptyString
  | String c r =>
      let c' := if upper then toUpper c else toLower c in
      String c' (canonicalise (Ascii.eqb c' "-") r)
  end.

(** [textproto.CanonicalMIMEHeaderKey]: a key with a byte that is not
    a token character is returned unchanged. *)
Definition CanonicalMIMEHeaderKey (s : string) : string :=
  if allValid s then canonicalise true s else s.

Definition isASCIISpace (c : ascii) : bool :=
  url.is_in c (String " " (String "009" (String "010" (String "013" ""))))%string.

Fixpoint trimLeft (f : ascii -> bool) (s : string) : string :=
  match s with
  | EmptyString => EmptyString
  | String c r => if f c then trimLeft f r else s
  end.

Definition trim (f : ascii -> bool) (s : string) : string :=
  String.rev (trimLeft f (String.rev (trimLeft f s))).

(** [textproto.TrimString] *)
Definition TrimString (s : string) : string := trim isASCIISpace s.

End textproto.

Module httpguts.

Definition isOWS (c : ascii) : bool :=
  Ascii.eqb c " " || Ascii.eqb c "009".

Definition trimOWS (s : string) : string := textproto.trim isOWS s.

Definition isASCII (c : ascii) : bool := (N_of_ascii c <? 128)%N.

(** [tokenEqual(t1, t2)]: equal lengths, [t1] ASCII only, equal up to
    ASCII case. *)
Fixpoint tokenEqual (t1 t2 : string) : bool :=
  match t1, t2 with
  | EmptyString, EmptyString => true
  | String a r1, String b r2 =>
      isASCII a
      && Ascii.eqb (textproto.toLower a) (textproto.toLower b)
      && tokenEqual r1 r2
  | _, _ => false
  end.

(** [headerValueContainsToken(v, token)]: some comma-separated element
    of [v] is the token. *)
Definition headerValueContainsToken (v token : string) : bool :=
  existsb (fun piece => tokenEqual (trimOWS piece) token)
          (strings.Split v ",").

(** [httpguts.HeaderValuesContainsToken] *)
Definition HeaderValuesContainsToken (values : list string) (token : string)
  : bool :=
  existsb (fun v => headerValueContainsToken v token) values.

End httpguts.

(** ** [net/http] *)

Module http.

(** [http.Header], a [map[string][]string].  A key that is absent
    reads as the nil slice. *)
Abbreviation Header := (gmap string (list string)).

Definition index (h : Header) (key : string) : list string :=
  default [] (h !! key).

Definition Get (h : Header) (key : string) : string :=
  match index h (textproto.CanonicalMIMEHeaderKey key) with
  | [] => EmptyString
  | v :: _ => v
  end.

Definition Set_ (h : Header) (key value : string) : Header :=
  <[textproto.CanonicalMIMEHeaderKey key := [value]]> h.

Definition Add (h : Header) (key value : string) : Header :=
  let k := textproto.CanonicalMIMEHeaderKey key in
  <[k := (index h k ++ [value])%list]> h.

Definition Del (h : Header) (key : string) : Header :=
  delete (textproto.CanonicalMIMEHeaderKey key) h.

Definition StatusSwitchingProtocols : Z := 101.
Definition StatusBadGateway : Z := 502.

(** [http.Request], as a handler receives it.  [TLS] tells whether
    the connection state pointer is non-nil; [Body] is [None] for a
    nil body. *)
Module Request.
Record t : Type := {
  Method : string;
  URL : url.URL;
  Header : Header;
  Body : option string;
  ContentLength : Z;
  Close : bool;
  Host : string;
  RemoteAddr : string;
  TLS : bool
}.
End Request.

(** [http.Response], as the transport returns it.  The body is a
    reader: [Body] lists the reads that return data, each with the
    time it returns [after] the one before (after the start of the
    copy for the first); the read that ends the body returns [BodyEnd]
    after the last of them, with [io.EOF] when [BodyErr] is [None] and
    with that error otherwise.  [Trailer] is the trailer map as it
    stands when the body has been read. *)
Module Response.
Record chunk : Type := {
  after : time.Duration;
  data : string
}.
Record t : Type := {
  StatusCode : Z;
  Header : Header;
  Body : list chunk;
  BodyEnd : time.Duration;
  BodyErr : option error_value;
  ContentLength : Z;
  Trailer : gmap string (list string)
}.
End Response.

(** [checkWriteHeaderCode(code)]: a status code has three digits. *)
Definition checkWriteHeaderCode (code : Z) : bool :=
  (100 <=? code) && (code <=? 999).

(** What the handler has done to its [http.ResponseWriter]: the
    status line of the response once it is written, the header map,
    the body bytes written so far, and the informational status lines
    sent before the response. *)
Module ResponseWriter.
Record t : Type := {
  status : option Z;
  Header : Header;
  body : string;
  informational : list Z
}.

(** A writer on which no response has started. *)
Definition fresh : t :=
  {| status := None; Header := ∅; body := EmptyString;
     informational := [] |}.

(** [rw.WriteHeader(code)] panics with "invalid WriteHeader code"
    when no header was written yet and the code does not pass
    [checkWriteHeaderCode]. *)
Definition WriteHeader_panics (rw : t) (code : Z) : bool :=
  match status rw with
  | Some _ => false
  | None => negb (checkWriteHeaderCode code)
  end.

(** [rw.WriteHeader(code)] when it does not panic: a call after the
    header was written is superfluous and ignored; a code from 100 to
    199 other than 101 is sent at once as an informational status
    line and the response is still to come; any other code is the
    status of the response. *)
Definition WriteHeader (rw : t) (code : Z) : t :=
  match status rw with
  | Some _ => rw
  | None =>
      if (100 <=? code) && (code <=? 199)
         && negb (code =? StatusSwitchingProtocols)
      then {| status := None; Header := Header rw; body := body rw;
              informational := (informational rw ++ [code])%list |}
      else {| status := Some code; Header := Header rw; body := body rw;
              informational := informational rw |}
  end.

(** [rw.Write(p)]: writes the status 200 first when none was set. *)
Definition Write (rw : t) (p : string) : t :=
  {| status := Some (default 200 (status rw));
     Header := Header rw;
     body := body rw +:+ p;
     informational := informational rw |}.

Definition with_Header (rw : t) (h : gmap string (list string)) : t :=
  {| status := status rw; Header := h; body := body rw;
     informational := informational rw |}.
End ResponseWriter.

(** [http.Transport]: the fields [NewProxy] sets, and the two that
    [http2.ConfigureTransport] fills in ([TLSClientConfig.NextProtos]
    and the keys of [TLSNextProto]).  [Dial] is the method value of a
    dialer, represented by that dialer. *)
Module Transport.
Record t : Type := {
  Dial : option net.Dialer;
  TLSHandshakeTimeout : time.Duration;
  ResponseHeaderTimeout : time.Duration;
  ExpectContinueTimeout : time.Duration;
  NextProtos : list string;
  TLSNextProto : list string
}.
End Transport.

(** The [http.RoundTripper] interface.  What a round trip over a
    transport yields is decided by the network and the origin. *)
Class RoundTripper : Type :=
  RoundTrip : Transport.t -> Request.t -> Response.t + error_value.

(** [http.Server] with a handler of type [H]; [inShutdown] is the
    flag that [Shutdown] sets. *)
Module Server.
Record t (H : Type) : Type := {
  Handler : H;
  ReadTimeout : time.Duration;
  WriteTimeout : time.Duration;
  IdleTimeout : time.Duration;
  ReadHeaderTimeout : time.Duration;
  inShutdown : bool
}.
Arguments Handler {H} _.
Arguments ReadTimeout {H} _.
Arguments WriteTimeout {H} _.
Arguments IdleTimeout {H} _.
Arguments ReadHeaderTimeout {H} _.
Arguments inShutdown {H} _.

Definition shutting_down {H : Type} (srv : t H) : t H :=
  {| Handler := Handler srv;
     ReadTimeout := ReadTimeout srv;
     WriteTimeout := WriteTimeout srv;
     IdleTimeout := IdleTimeout srv;
     ReadHeaderTimeout := ReadHeaderTimeout srv;
     inShutdown := true |}.
End Server.

(** What the accept loop of [Serve] observes, in order: a connection
    is accepted (and served on a goroutine of its own), [Accept]
    fails, or [Shutdown] runs on another goroutine, which sets
    [inShutdown] and closes the listener so that the pending [Accept]
    fails. *)
Inductive accept_event : Type :=
| Accepted
| AcceptFailed (e : error_value)
| ShutdownCalled.

(** The loop of [(srv).Serve(l)]:
    [rw, err := l.Accept(); if err != nil { if srv.shuttingDown()
    { return ErrServerClosed }; if temporary { continue }; return err }]. *)
Fixpoint accept_loop {H : Type} (srv : Server.t H) (evs : list accept_event)
  : outcome error * Server.t H :=
  match evs with
  | [] => (Blocked, srv)
  | Accepted :: evs' => accept_loop srv evs'
  | AcceptFailed e :: evs' =>
      if Temporary e then accept_loop srv evs' else (Returned (Some e), srv)
  | ShutdownCalled :: _ =>
      (Returned (Some ErrServerClosed), Server.shutting_down srv)
  end.

(** [(srv).Serve(l)]: "Serve always returns a non-nil error.  After
    Shutdown or Close, the returned error is ErrServerClosed."  A
    server that is already shutting down does not track the listener
    and returns at once. *)
Definition Serve {H : Type} (srv : Server.t H) (l : net.Listener)
    (evs : list accept_event) : outcome error * Server.t H :=
  if Server.inShutdown srv then (Returned (Some ErrServerClosed), srv)
  else accept_loop srv evs.

Definition shutdownPollIntervalMax : time.Duration :=
  500 * time.Millisecond.

(** [nextPollInterval()], the closure of [Shutdown] over
    [pollIntervalBase]: the base with a jitter of up to a tenth of it
    added, and the base for the next call, doubled and clamped.  It
    returns the interval and the new base. *)
Definition nextPollInterval `{rand.Source} (call : nat)
    (pollIntervalBase : time.Duration) : time.Duration * time.Duration :=
  let interval :=
    pollIntervalBase + rand.Intn call (pollIntervalBase / 10) in
  let pollIntervalBase := pollIntervalBase * 2 in
  (interval,
   if shutdownPollIntervalMax <? pollIntervalBase
   then shutdownPollIntervalMax else pollIntervalBase).

(** The loop of [(srv).Shutdown(ctx)]:
    [for { if srv.closeIdleConns() { return lnerr }; select
    { case <-ctx.Done(): return ctx.Err(); case <-timer.C:
    timer.Reset(nextPollInterval()) } }].
    [now] is the time of this poll and [timer] the time at which the
    timer fires next; [idle] is the time from which no connection is
    busy, so that [closeIdleConns()] closes them all and answers true.
    When the context and the timer are ready at the same instant
    [select] may take either; the context is taken here.  It returns
    the error and the time of the return.  Every interval is 1 ms at
    least, so [fuel] polls reach a time of [fuel] ms. *)
Fixpoint shutdown_loop `{rand.Source} (fuel call : nat)
    (pollIntervalBase timer now : time.Duration)
    (ctx : context.Context) (idle : time.Duration) (lnerr : error)
  : outcome (error * time.Duration) :=
  if idle <=? now then Returned (lnerr, now)
  else
    match context.Done ctx timer with
    | Some (at_, err) => Returned (Some err, Z.max now at_)
    | None =>
        match fuel with
        | O => Blocked
        | S fuel =>
            let '(interval, pollIntervalBase) :=
              nextPollInterval call pollIntervalBase in
            shutdown_loop fuel (S call) pollIntervalBase (timer + interval)
              timer ctx idle lnerr
        end
    end.

(** [(srv).Shutdown(ctx)]: sets [inShutdown], closes the listeners,
    which yields [lnerr], and then polls, first at once and then after
    growing intervals (1 ms doubling to 500 ms, each with a jitter of
    up to a tenth added), until [closeIdleConns()] finds no connection
    left; it returns [lnerr] then.  Between two polls it waits on
    [ctx.Done()] as well and returns [ctx.Err()] when that comes
    first.  The connections are tested before the context is looked
    at, so a context that is done already does not matter when nothing
    is open.  It returns the error with the time of the return, and
    the server. *)
Definition Shutdown `{rand.Source} {H : Type} (srv : Server.t H)
    (ctx : context.Context) (idle : time.Duration) (lnerr : error)
  : outcome (error * time.Duration) * Server.t H :=
  let '(interval, pollIntervalBase) :=
    nextPollInterval 0 (1 * time.Millisecond) in
  (shutdown_loop (S (Z.to_nat (idle / time.Millisecond))) 1
     pollIntervalBase interval 0 ctx idle lnerr,
   Server.shutting_down srv).

End http.

(** ** [mime] *)

Module mime.
(** [baseCT, _, _ := mime.ParseMediaType(v)]: the media type of a
    Content-Type value, lower-cased and without parameters.  Its
    parser is not modelled. *)
Class MediaTypes : Type := ParseMediaType : string -> string.
End mime.

(** ** [golang.org/x/net/http2] *)

Module http2.

Definition strSliceContains (ss : list string) (s : string) : bool :=
  existsb (String.eqb s) ss.

(** [http2.ConfigureTransport(t1)]: registers the "h2" protocol on the
    HTTP/1 transport (the error of a second registration is ignored by
    the caller, and cannot occur on a fresh transport). *)
Definition ConfigureTransport (t1 : http.Transport.t) : http.Transport.t :=
  let protos := http.Transport.NextProtos t1 in
  let protos := if strSliceContains protos "h2" then protos
                else "h2" :: protos in
  let protos := if strSliceContains protos "http/1.1" then protos
                else (protos ++ ["http/1.1"])%list in
  {| http.Transport.Dial := http.Transport.Dial t1;
     http.Transport.TLSHandshakeTimeout := http.Transport.TLSHandshakeTimeout t1;
     http.Transport.ResponseHeaderTimeout := http.Transport.ResponseHeaderTimeout t1;
     http.Transport.ExpectContinueTimeout := http.Transport.ExpectContinueTimeout t1;
     http.Transport.NextProtos := protos;
     http.Transport.TLSNextProto :=
       if strSliceContains (http.Transport.TLSNextProto t1) "h2"
       then http.Transport.TLSNextProto t1
       else "h2" :: http.Transport.TLSNextProto t1 |}.

End http2.

(** ** [net/http/httputil]: the reverse proxy *)

Module httputil.
Import http.

(** [httputil.ProxyRequest]: the inbound request, which a rewrite
    must not modify, and the outbound one, which it edits. *)
Record ProxyRequest : Type := {
  In : Request.t;
  Out : Request.t
}.

Definition with_URL (r : Request.t) (u : url.URL) : Request.t :=
  {| Request.Method := Request.Method r; Request.URL := u;
     Request.Header := Request.Header r; Request.Body := Request.Body r;
     Request.ContentLength := Request.ContentLength r;
     Request.Close := Request.Close r; Request.Host := Request.Host r;
     Request.RemoteAddr := Request.RemoteAddr r;
     Request.TLS := Request.TLS r |}.

Definition with_Header (r : Request.t) (h : Header) : Request.t :=
  {| Request.Method := Request.Method r; Request.URL := Request.URL r;
     Request.Header := h; Request.Body := Request.Body r;
     Request.ContentLength := Request.ContentLength r;
     Request.Close := Request.Close r; Request.Host := Request.Host r;
     Request.RemoteAddr := Request.RemoteAddr r;
     Request.TLS := Request.TLS r |}.

Definition with_Host (r : Request.t) (host : string) : Request.t :=
  {| Request.Method := Request.Method r; Request.URL := Request.URL r;
     Request.Header := Request.Header r; Request.Body := Request.Body r;
     Request.ContentLength := Request.ContentLength r;
     Request.Close := Request.Close r; Request.Host := host;
     Request.RemoteAddr := Request.RemoteAddr r;
     Request.TLS := Request.TLS r |}.

Definition with_Body_Close (r : Request.t) (b : option string) (c : bool)
  : Request.t :=
  {| Request.Method := Request.Method r; Request.URL := Request.URL r;
     Request.Header := Request.Header r; Request.Body := b;
     Request.ContentLength := Request.ContentLength r;
     Request.Close := c; Request.Host := Request.Host r;
     Request.RemoteAddr := Request.RemoteAddr r;
     Request.TLS := Request.TLS r |}.

Definition with_RawQuery (u : url.URL) (q : string) : url.URL :=
  {| url.Scheme := url.Scheme u; url.Host := url.Host u;
     url.Path := url.Path u; url.RawPath := url.RawPath u;
     url.RawQuery := q |}.

(** [singleJoiningSlash(a, b)] *)
Definition singleJoiningSlash (a b : string) : string :=
  let aslash := strings.HasSuffix a "/" in
  let bslash := strings.HasPrefix b "/" in
  if aslash && bslash then a +:+ strings.tail b
  else if negb aslash && negb bslash then a +:+ "/" +:+ b
  else a +:+ b.

(** [joinURLPath(a, b)]: the joined [Path] and [RawPath]. *)
Definition joinURLPath (a b : url.URL) : string * string :=
  if String.eqb (url.RawPath a) "" && String.eqb (url.RawPath b) "" then
    (singleJoiningSlash (url.Path a) (url.Path b), EmptyString)
  else
    let apath := url.EscapedPath a in
    let bpath := url.EscapedPath b in
    let aslash := strings.HasSuffix apath "/" in
    let bslash := strings.HasPrefix bpath "/" in
    if aslash && bslash then
      (url.Path a +:+ strings.tail (url.Path b), apath +:+ strings.tail bpath)
    else if negb aslash && negb bslash then
      (url.Path a +:+ "/" +:+ url.Path b, apath +:+ "/" +:+ bpath)
    else (url.Path a +:+ url.Path b, apath +:+ bpath).

(** [rewriteRequestURL(req, target)] *)
Definition rewriteRequestURL (req : Request.t) (target : url.URL)
  : Request.t :=
  let targetQuery := url.RawQuery target in
  let u := Request.URL req in
  let '(path, rawpath) := joinURLPath target u in
  let query :=
    if String.eqb targetQuery "" || String.eqb (url.RawQuery u) "" then
      targetQuery +:+ url.RawQuery u
    else targetQuery +:+ "&" +:+ url.RawQuery u in
  with_URL req
    {| url.Scheme := url.Scheme target; url.Host := url.Host target;
       url.Path := path; url.RawPath := rawpath; url.RawQuery := query |}.

(** [(r).SetURL(target)]: routes the outbound request to the target,
    and clears [Out.Host] so that the Host header is the target's. *)
Definition SetURL (r : ProxyRequest) (target : url.URL) : ProxyRequest :=
  {| In := In r;
     Out := with_Host (rewriteRequestURL (Out r) target) EmptyString |}.

(** [(r).SetXForwarded()]: sets X-Forwarded-For, X-Forwarded-Host and
    X-Forwarded-Proto on the outbound request.  The client address is
    appended to an X-Forwarded-For that the OUTBOUND header holds. *)
Definition SetXForwarded (r : ProxyRequest) : ProxyRequest :=
  let h := Request.Header (Out r) in
  let h :=
    match net.SplitHostPort (Request.RemoteAddr (In r)) with
    | inl (clientIP, _) =>
        let prior := index h "X-Forwarded-For" in
        let clientIP :=
          if (0 <? List.length prior)%nat
          then strings.Join prior ", " +:+ ", " +:+ clientIP
          else clientIP in
        Set_ h "X-Forwarded-For" clientIP
    | inr _ => Del h "X-Forwarded-For"
    end in
  let h := Set_ h "X-Forwarded-Host" (Request.Host (In r)) in
  let h := if Request.TLS (In r)
           then Set_ h "X-Forwarded-Proto" "https"
           else Set_ h "X-Forwarded-Proto" "http" in
  {| In := In r; Out := with_Header (Out r) h |}.

Definition hopHeaders : list string :=
  ["Connection"; "Proxy-Connection"; "Keep-Alive"; "Proxy-Authenticate";
   "Proxy-Authorization"; "Te"; "Trailer"; "Transfer-Encoding"; "Upgrade"].

(** [removeHopByHopHeaders(h)]: the headers named by the Connection
    header, then the fixed hop-by-hop set. *)
Definition removeHopByHopHeaders (h : Header) : Header :=
  let named :=
    flat_map (fun f => map textproto.TrimString (strings.Split f ","))
             (index h "Connection") in
  let h := foldl (fun h sf => if String.eqb sf "" then h else Del h sf)
                 h named in
  foldl Del h hopHeaders.

(** [upgradeType(h)] *)
Definition upgradeType (h : Header) : string :=
  if httpguts.HeaderValuesContainsToken (index h "Connection") "Upgrade"
  then Get h "Upgrade" else EmptyString.

(** [ascii.IsPrint(s)] *)
Fixpoint IsPrint (s : string) : bool :=
  match s with
  | EmptyString => true
  | String c r => url.between " " "~" c && IsPrint r
  end.

(** The scan of [cleanQueryParams]: no semicolon, and every percent
    sign followed by two hexadecimal digits. *)
Fixpoint parsable (s : string) : bool :=
  match s with
  | EmptyString => true
  | String ";" _ => false
  | String "%" r =>
      match r with
      | String h1 (String h2 r') => url.ishex h1 && url.ishex h2 && parsable r'
      | _ => false
      end
  | String _ r => parsable r
  end.

(** [cleanQueryParams(s)]: a query that does not parse is re-encoded
    from the parameters that do. *)
Definition cleanQueryParams (s : string) : string :=
  if parsable s then s else url.Encode (url.ParseQuery s).

(** The errors that reach the proxy's error handler. *)
Inductive proxy_error : Type :=
| ErrNoRewrite
    (* "ReverseProxy must have exactly one of Director or Rewrite set" *)
| ErrInvalidProtocol (reqUpType : string)
    (* "client tried to switch to invalid protocol %q" *)
| ErrRoundTrip (e : error_value)
| ErrBodyCopy (e : error_value).
    (* "httputil: ReverseProxy read error during body copy: %v" *)

(** The values the handler panics with: the message of
    [checkWriteHeaderCode], "invalid WriteHeader code %v", and
    [http.ErrAbortHandler]. *)
Inductive panic_value : Type :=
| InvalidWriteHeaderCode (code : Z)
| ErrAbortHandler.

(** What the copy of a response body does to the client-facing
    writer, with the time of each step from the start of the copy. *)
Inductive copy_event : Type :=
| Wrote (at_ : time.Duration) (p : string)
| Flushed (at_ : time.Duration).

(** What serving one request leaves behind: the response writer, the
    errors printed to the error log (never to the client), the writes
    and flushes of the body copy, and the value the handler panicked
    with, if it did. *)
Record served : Type := {
  writer : ResponseWriter.t;
  logged : list proxy_error;
  copied : list copy_event;
  panicked : option panic_value
}.

(** [httputil.ReverseProxy], with the fields [NewProxy] leaves at
    their zero value other than [ErrorHandler] left out: no
    [Director], no [ModifyResponse], no [ErrorLog], no [BufferPool]. *)
Record ReverseProxy : Type := {
  Rewrite : option (ProxyRequest -> ProxyRequest);
  Transport : option Transport.t;
  FlushInterval : time.Duration;
  ErrorHandler :
    option (ResponseWriter.t -> Request.t -> proxy_error -> served)
}.

(** [(p).defaultErrorHandler]: logs "http: proxy error: %v" and
    answers 502. *)
Definition defaultErrorHandler
    (rw : ResponseWriter.t) (req : Request.t) (err : proxy_error) : served :=
  {| writer := ResponseWriter.WriteHeader rw StatusBadGateway;
     logged := [err];
     copied := [];
     panicked := None |}.

Definition getErrorHandler (p : ReverseProxy)
  : ResponseWriter.t -> Request.t -> proxy_error -> served :=
  match ErrorHandler p with
  | Some h => h
  | None => defaultErrorHandler
  end.

(** The outbound request of [ServeHTTP], up to the round trip: the
    inbound request is cloned, hop-by-hop headers are removed, the
    client's forwarding headers are stripped, unparsable query
    parameters are removed, and the [Rewrite] hook runs. *)
Definition outbound (p : ReverseProxy) (req : Request.t)
  : Request.t + proxy_error :=
  let outreq := req in
  let outreq :=
    with_Body_Close outreq
      (if Request.ContentLength req =? 0 then None else Request.Body outreq)
      false in
  match Rewrite p with
  | None => inr ErrNoRewrite
  | Some rewrite =>
      let reqUpType := upgradeType (Request.Header outreq) in
      if negb (IsPrint reqUpType) then inr (ErrInvalidProtocol reqUpType)
      else
        let h := removeHopByHopHeaders (Request.Header outreq) in
        let h :=
          if httpguts.HeaderValuesContainsToken
               (index (Request.Header req) "Te") "trailers"
          then Set_ h "Te" "trailers" else h in
        let h :=
          if negb (String.eqb reqUpType "")
          then Set_ (Set_ h "Connection" "Upgrade") "Upgrade" reqUpType
          else h in
        let h := Del h "Forwarded" in
        let h := Del h "X-Forwarded-For" in
        let h := Del h "X-Forwarded-Host" in
        let h := Del h "X-Forwarded-Proto" in
        let outreq := with_Header outreq h in
        let outreq :=
          with_URL outreq
            (with_RawQuery (Request.URL outreq)
               (cleanQueryParams (url.RawQuery (Request.URL outreq)))) in
        let pr := rewrite {| In := req; Out := outreq |} in
        let outreq := Out pr in
        let outreq :=
          match Request.Header outreq !! "User-Agent" with
          | Some _ => outreq
          | None =>
              with_Header outreq (Set_ (Request.Header outreq) "User-Agent" "")
          end in
        inl outreq
  end.

(** [(p).flushInterval(res)]: a negative interval flushes after each
    write, zero never flushes while copying. *)
Definition flushInterval `{mime.MediaTypes} (p : ReverseProxy)
    (res : Response.t) : time.Duration :=
  let resCT := Get (Response.Header res) "Content-Type" in
  if String.eqb (mime.ParseMediaType resCT) "text/event-stream" then -1
  else if Response.ContentLength res =? -1 then -1
  else FlushInterval p.

(** [copyHeader(dst, src)] *)
Definition copyHeader (dst src : Header) : Header :=
  map_fold (fun k vv dst => foldl (fun d v => Add d k v) dst vv) dst src.

(** The timer of [maxLatencyWriter]: [pending] is the time at which
    the flush that is pending is due.  A timer that is due by [now]
    has fired, through [delayedFlush], before what happens at [now]. *)
Definition fire (pending : option time.Duration) (now : time.Duration)
  : list copy_event * option time.Duration :=
  match pending with
  | Some due => if due <=? now then ([Flushed due], None) else ([], pending)
  | None => ([], None)
  end.

(** What [(m).Write] of [maxLatencyWriter] does after [dst.Write] at
    time [now]: it flushes at once when the latency is negative, and
    otherwise starts the timer unless a flush is pending already. *)
Definition after_Write (latency : time.Duration)
    (pending : option time.Duration) (now : time.Duration)
  : list copy_event * option time.Duration :=
  if latency <? 0 then ([Flushed now], pending)
  else match pending with
       | Some _ => ([], pending)
       | None => ([], Some (now + latency))
       end.

(** The loop of [(p).copyBuffer(dst, src, buf)] over the reads that
    return data; a read of no bytes writes nothing.  With a flush
    interval of zero [dst] is the writer itself and nothing flushes.
    The writer takes every write.  It returns the writer, the events,
    the pending flush and the time. *)
Fixpoint copyBuffer (latency : time.Duration)
    (pending : option time.Duration) (now : time.Duration)
    (rw : ResponseWriter.t) (chunks : list Response.chunk)
  : ResponseWriter.t * list copy_event * option time.Duration
    * time.Duration :=
  match chunks with
  | [] => (rw, [], pending, now)
  | c :: cs =>
      let now := now + Response.after c in
      let '(fired, pending) := fire pending now in
      if String.eqb (Response.data c) "" then
        let '(rw', evs, pending', now') :=
          copyBuffer latency pending now rw cs in
        (rw', (fired ++ evs)%list, pending', now')
      else
        let rw := ResponseWriter.Write rw (Response.data c) in
        let '(flushed, pending) :=
          if latency =? 0 then ([], pending)
          else after_Write latency pending now in
        let '(rw', evs, pending', now') :=
          copyBuffer latency pending now rw cs in
        (rw', (fired ++ Wrote now (Response.data c) :: flushed ++ evs)%list,
         pending', now')
  end.

(** [(p).copyResponse(dst, src, flushInterval)]: with an interval
    other than zero the copy goes through a [maxLatencyWriter], whose
    first timer is set at the start, so that the headers are flushed
    even when the body is late; [defer mlw.stop()] drops the flush
    that is pending when the last read has returned.  It returns the
    writer, the events, the time of the end and the error of the last
    read, nil for [io.EOF]. *)
Definition copyResponse (rw : ResponseWriter.t) (res : Response.t)
    (flushInterval : time.Duration)
  : ResponseWriter.t * list copy_event * time.Duration * error :=
  let pending :=
    if flushInterval =? 0 then None else Some (Z.max 0 flushInterval) in
  let '(rw, evs, pending, now) :=
    copyBuffer flushInterval pending 0 rw (Response.Body res) in
  let now := now + Response.BodyEnd res in
  (rw, (evs ++ fst (fire pending now))%list, now, Response.BodyErr res).

(** [removeHopByHopHeaders(res.Header)] changes the header map of the
    response itself: every later use of [res] sees the header
    without the hop-by-hop ones. *)
Definition received (res : Response.t) : Response.t :=
  {| Response.StatusCode := Response.StatusCode res;
     Response.Header := removeHopByHopHeaders (Response.Header res);
     Response.Body := Response.Body res;
     Response.BodyEnd := Response.BodyEnd res;
     Response.BodyErr := Response.BodyErr res;
     Response.ContentLength := Response.ContentLength res;
     Response.Trailer := Response.Trailer res |}.

(** The relay of a response the origin did return, other than a
    protocol switch: headers without the hop-by-hop ones, the trailer
    announcement, the status, the body, and the trailers.  A status
    that [WriteHeader] refuses makes it panic.  An error of the copy
    aborts the handler with [panic(http.ErrAbortHandler)], as for
    every request that an [http.Server] hands to its handler (the
    request context has [http.ServerContextKey]); a read error other
    than [context.Canceled] is logged first. *)
Definition relay `{mime.MediaTypes} (p : ReverseProxy)
    (rw : ResponseWriter.t) (res : Response.t) : served :=
  let res := received res in
  let h := copyHeader (ResponseWriter.Header rw) (Response.Header res) in
  let trailerKeys := map fst (map_to_list (Response.Trailer res)) in
  let h := if (0 <? List.length trailerKeys)%nat
           then Add h "Trailer" (strings.Join trailerKeys ", ")
           else h in
  let rw := ResponseWriter.with_Header rw h in
  if ResponseWriter.WriteHeader_panics rw (Response.StatusCode res) then
    {| writer := rw; logged := []; copied := [];
       panicked := Some (InvalidWriteHeaderCode (Response.StatusCode res)) |}
  else
    let rw := ResponseWriter.WriteHeader rw (Response.StatusCode res) in
    let '(rw, evs, now, err) := copyResponse rw res (flushInterval p res) in
    match err with
    | Some e =>
        {| writer := rw;
           logged := match e with Canceled => [] | _ => [ErrBodyCopy e] end;
           copied := evs;
           panicked := Some ErrAbortHandler |}
    | None =>
        {| writer :=
             ResponseWriter.with_Header rw
               (copyHeader (ResponseWriter.Header rw) (Response.Trailer res));
           logged := [];
           copied := if (0 <? List.length trailerKeys)%nat
                     then (evs ++ [Flushed now])%list else evs;
           panicked := None |}
    end.

(** A connection taken over after "101 Switching Protocols" leaves
    the HTTP exchange; what happens on it is not modelled. *)
Class Upgrader : Type :=
  handleUpgradeResponse :
    ResponseWriter.t -> Request.t -> Response.t -> ResponseWriter.t.

(** [(p).ServeHTTP(rw, req)] *)
Definition ServeHTTP `{RoundTripper} `{Upgrader} `{mime.MediaTypes}
    (default_transport : Transport.t)
    (p : ReverseProxy) (rw : ResponseWriter.t) (req : Request.t) : served :=
  let transport := default default_transport (Transport p) in
  match outbound p req with
  | inr e => getErrorHandler p rw req e
  | inl outreq =>
      match RoundTrip transport outreq with
      | inr err => getErrorHandler p rw outreq (ErrRoundTrip err)
      | inl res =>
          if Response.StatusCode res =? StatusSwitchingProtocols then
            {| writer := handleUpgradeResponse rw outreq res; logged := [];
               copied := []; panicked := None |}
          else relay p rw res
      end
  end.

End httputil.

(** ** Package [internal]: the proxy handler and the server wrapper *)

Module internal.
Import time.

(** [NewProxy] configures a reverse proxy handler for a single
    upstream target. *)
Definition NewProxy (target : url.URL) : httputil.ReverseProxy :=
  let transport :=
    {| http.Transport.Dial :=
         Some {| net.Timeout := 30 * Second; net.KeepAlive := 30 * Second |};
       http.Transport.TLSHandshakeTimeout := 10 * Second;
       http.Transport.ResponseHeaderTimeout := 10 * Second;
       http.Transport.ExpectContinueTimeout := 1 * Second;
       http.Transport.NextProtos := [];
       http.Transport.TLSNextProto := [] |} in
  let transport := http2.ConfigureTransport transport in
  {| httputil.Transport := Some transport;
     httputil.FlushInterval := 10 * Millisecond;
     httputil.Rewrite :=
       Some (fun r => httputil.SetURL (httputil.SetXForwarded r) target);
     httputil.ErrorHandler := None |}.

(** [Server] wraps [http.Server] and [net.Listener]; both fields are
    nil in the zero value. *)
Record Server : Type := {
  srv : option (http.Server.t httputil.ReverseProxy);
  listener : option net.Listener
}.

(** [NewServer] creates an http server with a reverse proxy handler. *)
Definition NewServer (target : url.URL) : Server :=
  let proxy := NewProxy target in
  let srv :=
    {| http.Server.Handler := proxy;
       http.Server.ReadTimeout := 5 * Second;
       http.Server.WriteTimeout := 10 * Second;
       http.Server.IdleTimeout := 30 * Second;
       http.Server.ReadHeaderTimeout := 2 * Second;
       http.Server.inShutdown := false |} in
  {| srv := Some srv; listener := None |}.

(** [Listen] creates a listener on the given address and stores it. *)
Definition Listen `{net.Network} (s : Server) (address : string)
  : error * Server :=
  match net.Listen "tcp" address with
  | inr err =>
      (Some (errorString
               (fmt.Sprintf "failed to create listener: %s" [Error err])),
       s)
  | inl listener => (None, {| srv := srv s; listener := Some listener |})
  end.

(** [s.srv.Serve(l)]: the call through the [srv] pointer with the
    listener interface value [l]; through nil it panics. *)
Definition srv_Serve (s : Server) (l : option net.Listener)
    (evs : list http.accept_event) : outcome error * Server :=
  match srv s, l with
  | Some h, Some l =>
      let '(r, h') := http.Serve h l evs in
      (r, {| srv := Some h'; listener := listener s |})
  | _, _ => (Panicked nil_dereference, s)
  end.

(** [Serve] starts the http server with the existing listener. *)
Definition Serve (s : Server) (evs : list http.accept_event)
  : outcome error * Server :=
  match listener s with
  | None =>
      (Returned
         (Some (errorString
                  (fmt.Sprintf "must call Listen() before Serve()" []))),
       s)
  | Some _ => srv_Serve s (listener s) evs
  end.

(** [ListenAndServe] is a convenience method for [Listen] and [Serve]. *)
Definition ListenAndServe `{net.Network} (s : Server) (address : string)
    (evs : list http.accept_event) : outcome error * Server :=
  match Listen s address with
  | (Some err, s') => (Returned (Some err), s')
  | (None, s') => srv_Serve s' (listener s') evs
  end.

(** [Shutdown] cleanly shuts down the server:
    [ctx, cancel := context.WithTimeout(ctx, 10*time.Second)], then
    [s.srv.Shutdown(ctx)].  [idle] is the time from which no
    connection is busy and [lnerr] what closing the listeners yields;
    the result is the error with the time of the return. *)
Definition ShutdownContext `{rand.Source} (s : Server)
    (ctx : context.Context) (idle : Duration) (lnerr : error)
  : outcome (error * Duration) * Server :=
  let ctx := context.WithTimeout ctx (10 * Second) in
  match srv s with
  | None => (Panicked nil_dereference, s)
  | Some h =>
      let '(r, h') := http.Shutdown h ctx idle lnerr in
      (r, {| srv := Some h'; listener := listener s |})
  end.

(** [Shutdown] called with a context that its owner does not cancel,
    [context.Background()] for [None] and otherwise a context with the
    time [d] left to its deadline, on listeners that close without an
    error; the result is the error alone. *)
Definition Shutdown `{rand.Source} (s : Server) (ctx : option Duration)
    (drain : Duration) : outcome error * Server :=
  let '(r, s') :=
    ShutdownContext s
      match ctx with
      | None => context.Background
      | Some d => context.DoneAfter d DeadlineExceeded
      end
      drain None in
  (match r with
   | Returned (e, _) => Returned e
   | Panicked msg => Panicked msg
   | Blocked => Blocked
   end, s').

(** [URL] returns the server listening URL. *)
Definition URL (s : Server) : outcome string :=
  match listener s with
  | None => Panicked nil_dereference
  | Some l => Returned (fmt.Sprintf "http://%s" [net.Addr l])
  end.

End internal.

(** ** Package [main] *)

Module main.

(** The end of [main]: [if err := srv.ListenAndServe(address);
    err != nil { log.Println(err); os.Exit(1) }], then
    "Server stopped cleanly" and exit status 0. *)
Definition exit_status `{net.Network} (target : url.URL) (address : string)
    (evs : list http.accept_event) : outcome Z :=
  let srv := internal.NewServer target in
  match fst (internal.ListenAndServe srv address evs) with
  | Returned (Some _) => Returned 1
  | Returned None => Returned 0
  | Panicked m => Panicked m
  | Blocked => Blocked
  end.

End main.

(** ** Sample inputs *)

Module samples.

(** The default of the [-target] flag, as [url.Parse] returns it. *)
Definition default_target : url.URL :=
  {| url.Scheme := "http"; url.Host := "127.0.0.1:8000";
     url.Path := ""; url.RawPath := ""; url.RawQuery := "" |}.

(** [GET /search?a=1;b=2&c=3] sent to the proxy on 127.0.0.1:8001 by
    a client at 127.0.0.1:54321 that supplies an X-Forwarded-For of
    its own. *)
Definition search_request : http.Request.t :=
  {| http.Request.Method := "GET";
     http.Request.URL :=
       {| url.Scheme := ""; url.Host := ""; url.Path := "/search";
          url.RawPath := ""; url.RawQuery := "a=1;b=2&c=3" |};
     http.Request.Header :=
       <["X-Forwarded-For" := ["203.0.113.7"]]>
         (<["User-Agent" := ["curl/7.81.0"]]> (<["Accept" := ["*/*"]]> ∅));
     http.Request.Body := None;
     http.Request.ContentLength := 0;
     http.Request.Close := false;
     http.Request.Host := "127.0.0.1:8001";
     http.Request.RemoteAddr := "127.0.0.1:54321";
     http.Request.TLS := false |}.

(** [GET /anything?x=1], without forwarding headers. *)
Definition plain_request : http.Request.t :=
  {| http.Request.Method := "GET";
     http.Request.URL :=
       {| url.Scheme := ""; url.Host := ""; url.Path := "/anything";
          url.RawPath := ""; url.RawQuery := "x=1" |};
     http.Request.Header := <["User-Agent" := ["curl/7.81.0"]]> ∅;
     http.Request.Body := None;
     http.Request.ContentLength := 0;
     http.Request.Close := false;
     http.Request.Host := "127.0.0.1:8001";
     http.Request.RemoteAddr := "127.0.0.1:54321";
     http.Request.TLS := false |}.

(** An origin address on which nothing listens: every dial fails. *)
Definition refused : error_value :=
  OpError "dial tcp 127.0.0.1:8000: connect: connection refused" false.
Definition no_origin : http.RoundTripper := fun _ _ => inr refused.

Definition no_upgrade : httputil.Upgrader := fun rw _ _ => rw.

Definition no_types : mime.MediaTypes := fun _ => EmptyString.

(** Media types for Content-Type values that are a bare media type in
    lower case: the value itself. *)
Definition bare_types : mime.MediaTypes := fun v => v.

(** A generator that draws 0 every time, and one whose draws grow. *)
Definition no_jitter : rand.Source := fun _ => 0.
Definition some_jitter : rand.Source :=
  fun call => 99999 + 31337 * Z.of_nat call.

(** One byte that arrives a second after the one before. *)
Definition drip : http.Response.chunk :=
  {| http.Response.after := 1 * time.Second; http.Response.data := "*" |}.

(** A response of four bytes with a declared length, dripped over
    four seconds. *)
Definition drip_response : http.Response.t :=
  {| http.Response.StatusCode := 200;
     http.Response.Header := <["Content-Type" := ["text/plain"]]> ∅;
     http.Response.Body := [drip; drip; drip; drip];
     http.Response.BodyEnd := 0;
     http.Response.BodyErr := None;
     http.Response.ContentLength := 4;
     http.Response.Trailer := ∅ |}.

(** [http.DefaultTransport], never used: [NewProxy] sets its own. *)
Definition DefaultTransport : http.Transport.t :=
  {| http.Transport.Dial :=
       Some {| net.Timeout := 30 * time.Second;
               net.KeepAlive := 30 * time.Second |};
     http.Transport.TLSHandshakeTimeout := 10 * time.Second;
     http.Transport.ResponseHeaderTimeout := 0;
     http.Transport.ExpectContinueTimeout := 1 * time.Second;
     http.Transport.NextProtos := [];
     http.Transport.TLSNextProto := [] |}.

(** A system that grants every address and resolves the ephemeral
    port of "127.0.0.1:0" to 43521; and one on which every bind
    fails. *)
Definition free_ports : net.Network :=
  fun _ address =>
    inl {| net.Addr := if String.eqb address "127.0.0.1:0"
                       then "127.0.0.1:43521" else address |}.
Definition port_taken : net.Network :=
  fun _ address =>
    inr (OpError ("listen tcp " +:+ address
                  +:+ ": bind: address already in use") false).

(** The server of the lifecycle test after [Listen("127.0.0.1:0")]. *)
Definition bound_server : internal.Server :=
  snd (@internal.Listen free_ports
         (internal.NewServer default_target) "127.0.0.1:0").

(** A target with a path prefix and a query of its own. *)
Definition prefixed_target : url.URL :=
  {| url.Scheme := "https"; url.Host := "origin.example";
     url.Path := "/api"; url.RawPath := ""; url.RawQuery := "key=1" |}.

(** A request over TLS that names a header of its own in Connection
    and carries hop-by-hop and forwarding headers. *)
Definition laden_request : http.Request.t :=
  {| http.Request.Method := "GET";
     http.Request.URL :=
       {| url.Scheme := ""; url.Host := ""; url.Path := "/v1/items";
          url.RawPath := ""; url.RawQuery := "page=2" |};
     http.Request.Header :=
       <["Connection" := ["keep-alive, x-secret"]]>
         (<["X-Secret" := ["s3cr3t"]]>
            (<["Keep-Alive" := ["timeout=5"]]>
               (<["Proxy-Authorization" := ["Basic Zm9v"]]>
                  (<["Forwarded" := ["for=198.51.100.1"]]>
                     (<["X-Forwarded-Host" := ["evil.example"]]>
                        (<["Accept" := ["*/*"]]> ∅))))));
     http.Request.Body := None;
     http.Request.ContentLength := 0;
     http.Request.Close := false;
     http.Request.Host := "proxy.example";
     http.Request.RemoteAddr := "192.0.2.10:40000";
     http.Request.TLS := true |}.

(** A request that arrived on a Unix socket: the remote address is not
    "host:port". *)
Definition socket_request : http.Request.t :=
  {| http.Request.Method := "GET";
     http.Request.URL :=
       {| url.Scheme := ""; url.Host := ""; url.Path := "/";
          url.RawPath := ""; url.RawQuery := "" |};
     http.Request.Header := <["X-Forwarded-For" := ["203.0.113.7"]]> ∅;
     http.Request.Body := None;
     http.Request.ContentLength := 0;
     http.Request.Close := false;
     http.Request.Host := "localhost";
     http.Request.RemoteAddr := "@";
     http.Request.TLS := false |}.

(** An origin that answers every request with [drip_response]. *)
Definition dripping_origin : http.RoundTripper :=
  fun _ _ => inl drip_response.

(** The same four bytes in a chunked response, of unknown length. *)
Definition streamed_response : http.Response.t :=
  {| http.Response.StatusCode := 200;
     http.Response.Header := <["Content-Type" := ["text/plain"]]> ∅;
     http.Response.Body := [drip; drip; drip; drip];
     http.Response.BodyEnd := 0;
     http.Response.BodyErr := None;
     http.Response.ContentLength := -1;
     http.Response.Trailer := ∅ |}.

Definition streaming_origin : http.RoundTripper :=
  fun _ _ => inl streamed_response.

(** Two events of a "text/event-stream", a second apart, in a
    response that declares its length. *)
Definition event_response : http.Response.t :=
  {| http.Response.StatusCode := 200;
     http.Response.Header := <["Content-Type" := ["text/event-stream"]]> ∅;
     http.Response.Body := [drip; drip];
     http.Response.BodyEnd := 0;
     http.Response.BodyErr := None;
     http.Response.ContentLength := 2;
     http.Response.Trailer := ∅ |}.

Definition event_origin : http.RoundTripper :=
  fun _ _ => inl event_response.

(** The same two events in a response whose Connection header names
    Content-Type. *)
Definition hidden_event_response : http.Response.t :=
  {| http.Response.StatusCode := 200;
     http.Response.Header :=
       <["Connection" := ["content-type"]]>
         (<["Content-Type" := ["text/event-stream"]]> ∅);
     http.Response.Body := [drip; drip];
     http.Response.BodyEnd := 0;
     http.Response.BodyErr := None;
     http.Response.ContentLength := 2;
     http.Response.Trailer := ∅ |}.
Definition hidden_event_origin : http.RoundTripper :=
  fun _ _ => inl hidden_event_response.

(** A response whose origin goes away after two of four bytes. *)
Definition broken_response : http.Response.t :=
  {| http.Response.StatusCode := 200;
     http.Response.Header := <["Content-Type" := ["text/plain"]]> ∅;
     http.Response.Body := [drip; drip];
     http.Response.BodyEnd := 1 * time.Second;
     http.Response.BodyErr := Some (errorString "unexpected EOF");
     http.Response.ContentLength := 4;
     http.Response.Trailer := ∅ |}.
Definition breaking_origin : http.RoundTripper :=
  fun _ _ => inl broken_response.

(** A response with the status line "HTTP/1.1 099". *)
Definition odd_response : http.Response.t :=
  {| http.Response.StatusCode := 99;
     http.Response.Header := ∅;
     http.Response.Body := [];
     http.Response.BodyEnd := 0;
     http.Response.BodyErr := None;
     http.Response.ContentLength := 0;
     http.Response.Trailer := ∅ |}.
Definition odd_origin : http.RoundTripper :=
  fun _ _ => inl odd_response.

(** The zero value of [Server]: both pointers nil. *)
Definition zero_Server : internal.Server :=
  {| internal.srv := None; internal.listener := None |}.

(** A failure of [Accept] that is not temporary. *)
Definition accept_broken : error_value :=
  OpError "accept tcp 127.0.0.1:43521: accept4: invalid argument" false.

(** A failure of [Accept] that is temporary. *)
Definition accept_busy : error_value :=
  OpError "accept tcp 127.0.0.1:43521: accept4: too many open files" true.

(** A request that asks to switch to a protocol whose name holds the
    control character 1. *)
Definition bad_upgrade_request : http.Request.t :=
  {| http.Request.Method := "GET";
     http.Request.URL :=
       {| url.Scheme := ""; url.Host := ""; url.Path := "/chat";
          url.RawPath := ""; url.RawQuery := "" |};
     http.Request.Header :=
       <["Connection" := ["Upgrade"]]>
         (<["Upgrade" := [String "w" (String "001" "s")]]> ∅);
     http.Request.Body := None;
     http.Request.ContentLength := 0;
     http.Request.Close := false;
     http.Request.Host := "proxy.example";
     http.Request.RemoteAddr := "192.0.2.10:40001";
     http.Request.TLS := false |}.

End samples.

(** ** The claim of path and query preservation, as the specification
    words it *)


(** The client address is in X-Forwarded-For, appended to the value the
    inbound request carries, if it carries one. *)
Definition appends_to_client_header (target : url.URL) (req : http.Request.t)
  : Prop :=
  forall out clientIP port,
    httputil.outbound (internal.NewProxy target) req = inl out ->
    net.SplitHostPort (http.Request.RemoteAddr req) = inl (clientIP, port) ->
    http.index (http.Request.Header out) "X-Forwarded-For"
    = match http.index (http.Request.Header req) "X-Forwarded-For" with
      | [] => [clientIP]
      | prior => [strings.Join prior ", " +:+ ", " +:+ clientIP]
      end.

(** [Listen] and then, if it succeeded, [Serve]: the composition that
    [ListenAndServe] is documented to be. *)
Definition Listen_then_Serve `{net.Network} (s : internal.Server)
    (address : string) (evs : list http.accept_event)
  : outcome error * internal.Server :=
  match internal.Listen s address with
  | (Some err, s') => (Returned (Some err), s')
  | (None, s') => internal.Serve s' evs
  end.

(** The outbound request before the [Rewrite] hook runs, for a header
    [h] left by the removal of hop-by-hop and forwarding headers. *)
Definition before_rewrite (req : http.Request.t)
  (h : gmap string (list string)) : http.Request.t :=
  httputil.with_URL
    (httputil.with_Header
       (httputil.with_Body_Close req
          (if http.Request.ContentLength req =? 0 then None
           else http.Request.Body req)
          false) h)
    (httputil.with_RawQuery (http.Request.URL req)
       (httputil.cleanQueryParams (url.RawQuery (http.Request.URL req)))).

(** The header of the outbound request when the [Rewrite] hook is
    called: the inbound header without the hop-by-hop headers, with the
    trailer and upgrade announcements put back, and without the
    forwarding headers the client sent. *)
Definition header_before_rewrite (req : http.Request.t)
  : gmap string (list string) :=
  let reqUpType := httputil.upgradeType (http.Request.Header req) in
  let h := httputil.removeHopByHopHeaders (http.Request.Header req) in
  let h :=
    if httpguts.HeaderValuesContainsToken
         (http.index (http.Request.Header req) "Te") "trailers"
    then http.Set_ h "Te" "trailers" else h in
  let h :=
    if negb (String.eqb reqUpType "")
    then http.Set_ (http.Set_ h "Connection" "Upgrade") "Upgrade" reqUpType
    else h in
  http.Del (http.Del (http.Del (http.Del h "Forwarded") "X-Forwarded-For")
              "X-Forwarded-Host") "X-Forwarded-Proto".

(** The header names that the Connection header of [h] lists, as
    [removeHopByHopHeaders] reads them. *)
Definition named_by_Connection (h : gmap string (list string)) : list string :=
  flat_map (fun f => map textproto.TrimString (strings.Split f ","))
           (http.index h "Connection").

(** The keys that the proxy writes itself on the outbound header. *)
Definition written_by_proxy : list string :=
  ["Te"; "Connection"; "Upgrade"; "Forwarded"; "X-Forwarded-For";
   "X-Forwarded-Host"; "X-Forwarded-Proto"; "User-Agent"].

(** The time at which the body of a response has been read: the sum
    of the times its reads take. *)
Definition body_time (res : http.Response.t) : time.Duration :=
  foldr (fun c t => http.Response.after c + t) (http.Response.BodyEnd res)
        (http.Response.Body res).

(** The writes of a copy that takes every read when it returns: a read
    that returns data is written at the time at which it returns. *)
Fixpoint arrivals (now : time.Duration) (chunks : list http.Response.chunk)
  : list httputil.copy_event :=
  match chunks with
  | [] => []
  | c :: cs =>
      let now := now + http.Response.after c in
      if String.eqb (http.Response.data c) "" then arrivals now cs
      else httputil.Wrote now (http.Response.data c) :: arrivals now cs
  end.

Definition is_Wrote (ev : httputil.copy_event) : bool :=
  match ev with
  | httputil.Wrote _ _ => true
  | httputil.Flushed _ => false
  end.

(** The bytes of a response body: what its reads return, in order. *)
Definition body_bytes (res : http.Response.t) : string :=
  foldr (fun c s => http.Response.data c +:+ s) "" (http.Response.Body res).



(** An event after which the accept loop goes on: a connection, or a
    temporary failure of [Accept]. *)
Definition keeps_serving (ev : http.accept_event) : bool :=
  match ev with
  | http.Accepted => true
  | http.AcceptFailed e => Temporary e
  | http.ShutdownCalled => false
  end.

(** No colon and no bracket: what the host and port of an address
    "host:port" are made of. *)
Definition plain (s : string) : bool :=
  negb (strings.ContainsByte s ":") && negb (strings.ContainsByte s "[")
  && negb (strings.ContainsByte s "]").

(** * Properties *)

(** ** Strings and paths *)

Section paths.
Import http httputil.






Lemma length_append (a b : string) :
  String.length (a +:+ b) = (String.length a + String.length b)%nat.
Proof.
  induction a as [|c a IH]; [reflexivity|].
  change (S (String.length (a +:+ b))
          = S (String.length a + String.length b)%nat).
  now rewrite IH.
Qed.

Lemma substring_app (a b : string) (m : nat) :
  String.substring (String.length a) m (a +:+ b) = String.substring 0 m b.
Proof. induction a as [|c a IH]; [reflexivity | exact IH]. Qed.

Lemma append_empty_r (s : string) : s +:+ "" = s.
Proof.
  induction s as [|c s IH]; [reflexivity|].
  change (String c (s +:+ "") = String c s). now f_equal.
Qed.

Lemma append_assoc (a b c : string) : a +:+ b +:+ c = (a +:+ b) +:+ c.
Proof.
  induction a as [|x a IH]; [reflexivity|].
  change (String x (a +:+ b +:+ c) = String x ((a +:+ b) +:+ c)).
  now f_equal.
Qed.

Lemma HasSuffix_slash (base : string) :
  strings.HasSuffix (base +:+ "/") "/" = true.
Proof.
  unfold strings.HasSuffix. rewrite length_append.
  change (String.length "/") with 1%nat.
  destruct (Nat.leb_spec 1 (String.length base + 1)) as [_|Hlt]; [|lia].
  replace (String.length base + 1 - 1)%nat with (String.length base) by lia.
  rewrite substring_app. reflexivity.
Qed.


End paths.

(** ** The outbound request *)

Section outbound_request.
Import http httputil.

Variable target : url.URL.

(** What [ServeHTTP] hands to the transport: the hook of [NewProxy]
    applied to a request from which the client's X-Forwarded-For is
    gone; afterwards only User-Agent may be added. *)
Lemma outbound_inv (req out : Request.t) :
  outbound (internal.NewProxy target) req = inl out ->
  exists h,
    h !! "X-Forwarded-For" = None /\
    let pr := SetURL (SetXForwarded
                        {| In := req; Out := before_rewrite req h |})
                target in
    Request.URL out = Request.URL (Out pr)
    /\ Request.Host out = Request.Host (Out pr)
    /\ (forall k, k <> "User-Agent" ->
          Request.Header out !! k = Request.Header (Out pr) !! k).
Proof.
  unfold outbound, internal.NewProxy. cbn [Rewrite].
  destruct (negb (IsPrint _)); [discriminate|].
  intros Heq.
  apply (f_equal (fun x => match x with inl o => o | inr _ => out end))
    in Heq.
  cbv beta iota in Heq. subst out.
  eexists. split; [|split; [|split]].
  2, 3: destruct (_ !! "User-Agent"); reflexivity.
  2: { intros k Hk. destruct (_ !! "User-Agent"); [reflexivity|].
       cbn [Request.Header with_Header]. unfold Set_.
       change (textproto.CanonicalMIMEHeaderKey "User-Agent")
         with "User-Agent".
       rewrite lookup_insert_ne by congruence. reflexivity. }
  unfold Del.
  change (textproto.CanonicalMIMEHeaderKey "X-Forwarded-For")
    with "X-Forwarded-For".
  change (textproto.CanonicalMIMEHeaderKey "X-Forwarded-Host")
    with "X-Forwarded-Host".
  change (textproto.CanonicalMIMEHeaderKey "X-Forwarded-Proto")
    with "X-Forwarded-Proto".
  rewrite !lookup_delete_ne by discriminate.
  apply lookup_delete_eq.
Qed.

(** The URL that [SetURL] leaves on the outbound request. *)
Lemma SetURL_URL (pr : ProxyRequest) :
  let u := Request.URL (Out pr) in
  Request.URL (Out (SetURL pr target))
  = {| url.Scheme := url.Scheme target;
       url.Host := url.Host target;
       url.Path := fst (joinURLPath target u);
       url.RawPath := snd (joinURLPath target u);
       url.RawQuery :=
         if String.eqb (url.RawQuery target) ""
            || String.eqb (url.RawQuery u) ""
         then url.RawQuery target +:+ url.RawQuery u
         else url.RawQuery target +:+ "&" +:+ url.RawQuery u |}.
Proof.
  unfold SetURL, rewriteRequestURL. cbn [Out].
  destruct (joinURLPath target (Request.URL (Out pr))). reflexivity.
Qed.

(** [SetXForwarded] puts the client address after whatever
    X-Forwarded-For the outbound header holds at that moment. *)
Lemma SetXForwarded_appends (pr : ProxyRequest) (clientIP port : string) :
  net.SplitHostPort (Request.RemoteAddr (In pr)) = inl (clientIP, port) ->
  Request.Header (Out (SetXForwarded pr)) !! "X-Forwarded-For"
  = Some [match index (Request.Header (Out pr)) "X-Forwarded-For" with
          | [] => clientIP
          | prior => strings.Join prior ", " +:+ ", " +:+ clientIP
          end].
Proof.
  intros Hsplit. unfold SetXForwarded. rewrite Hsplit.
  cbn [Out Request.Header with_Header]. unfold Set_.
  change (textproto.CanonicalMIMEHeaderKey "X-Forwarded-For")
    with "X-Forwarded-For".
  change (textproto.CanonicalMIMEHeaderKey "X-Forwarded-Host")
    with "X-Forwarded-Host".
  change (textproto.CanonicalMIMEHeaderKey "X-Forwarded-Proto")
    with "X-Forwarded-Proto".
  destruct (Request.TLS (In pr));
    rewrite !lookup_insert_ne by discriminate;
    rewrite lookup_insert_eq;
    destruct (index (Request.Header (Out pr)) "X-Forwarded-For");
    reflexivity.
Qed.

(** The X-Forwarded-For of the outbound request is decided by the
    remote address alone. *)
Lemma outbound_X_Forwarded_For (req out : Request.t) :
  outbound (internal.NewProxy target) req = inl out ->
  Request.Header out !! "X-Forwarded-For"
  = match net.SplitHostPort (Request.RemoteAddr req) with
    | inl (clientIP, _) => Some [clientIP]
    | inr _ => None
    end.
Proof.
  intros (h & Hh & _ & _ & Hk)%outbound_inv.
  rewrite Hk by discriminate. clear Hk.
  destruct (net.SplitHostPort (Request.RemoteAddr req))
    as [[clientIP port]|e] eqn:Hsplit.
  - unfold SetURL. cbn [Out].
    change (Request.Header (with_Host ?r _)) with (Request.Header r).
    unfold rewriteRequestURL.
    destruct (joinURLPath _ _).
    change (Request.Header (with_URL ?r _)) with (Request.Header r).
    rewrite (SetXForwarded_appends _ clientIP port) by exact Hsplit.
    cbn [Out]. unfold index.
    change (Request.Header (before_rewrite req h)) with h.
    rewrite Hh. reflexivity.
  - unfold SetURL. cbn [Out].
    change (Request.Header (with_Host ?r _)) with (Request.Header r).
    unfold rewriteRequestURL.
    destruct (joinURLPath _ _).
    change (Request.Header (with_URL ?r _)) with (Request.Header r).
    unfold SetXForwarded. cbn [In Out]. rewrite Hsplit.
    cbn [Request.Header with_Header]. unfold Set_, Del.
    change (textproto.CanonicalMIMEHeaderKey "X-Forwarded-For")
      with "X-Forwarded-For".
    change (textproto.CanonicalMIMEHeaderKey "X-Forwarded-Host")
      with "X-Forwarded-Host".
    change (textproto.CanonicalMIMEHeaderKey "X-Forwarded-Proto")
      with "X-Forwarded-Proto".
    destruct (Request.TLS req);
      rewrite !lookup_insert_ne by discriminate;
      apply lookup_delete_eq.
Qed.

End outbound_request.

(** ** The forwarding engine *)

Section forwarding.
Import http httputil.




(** C3, as amended.  When the remote address of the inbound request
    is "host:port", the X-Forwarded-For of the outbound request is
    that host and nothing else: an X-Forwarded-For that the client
    supplied is removed before the rewrite runs and is not carried
    over. *)
Theorem forwarded_for_is_the_client_address
    (target : url.URL) (req out : Request.t) (clientIP port : string) :
  outbound (internal.NewProxy target) req = inl out ->
  net.SplitHostPort (Request.RemoteAddr req) = inl (clientIP, port) ->
  Request.Header out !! "X-Forwarded-For" = Some [clientIP]
  /\ Get (Request.Header out) "X-Forwarded-For" = clientIP.
Proof.
  intros Hout Hsplit.
  pose proof (outbound_X_Forwarded_For target req out Hout) as Hxff.
  rewrite Hsplit in Hxff. split; [exact Hxff|].
  unfold Get, index.
  change (textproto.CanonicalMIMEHeaderKey "X-Forwarded-For")
    with "X-Forwarded-For".
  rewrite Hxff. reflexivity.
Qed.

(** The request of the client at 127.0.0.1:54321 that announces
    203.0.113.7 goes out with X-Forwarded-For: 127.0.0.1. *)
Lemma forwarded_for_is_the_client_address_witness :
  exists out,
    outbound (internal.NewProxy samples.default_target)
      samples.search_request = inl out
    /\ Request.Header out !! "X-Forwarded-For" = Some ["127.0.0.1"]
    /\ Get (Request.Header out) "X-Forwarded-For" = "127.0.0.1".
Proof.
  assert (E : exists out,
             outbound (internal.NewProxy samples.default_target)
               samples.search_request = inl out)
    by (vm_compute; eexists; reflexivity).
  destruct E as [out E]. exists out. split; [exact E|].
  apply (forwarded_for_is_the_client_address
           samples.default_target samples.search_request out
           "127.0.0.1" "54321" E).
  reflexivity.
Defined.

(** C3, refuted as worded: the X-Forwarded-For that the client sent,
    203.0.113.7, is not in the outbound header. *)
Lemma client_forwarded_for_is_dropped :
  ~ appends_to_client_header samples.default_target samples.search_request.
Proof.
  intros Hclaim.
  assert (E : exists out,
             outbound (internal.NewProxy samples.default_target)
               samples.search_request = inl out
             /\ index (Request.Header out) "X-Forwarded-For" = ["127.0.0.1"])
    by (vm_compute; eexists; split; reflexivity).
  destruct E as (out & E & Hxff).
  specialize (Hclaim out "127.0.0.1" "54321" E eq_refl).
  rewrite Hxff in Hclaim. vm_compute in Hclaim. discriminate Hclaim.
Qed.

(** C2.  When no response has started and the round trip to the
    origin fails (as every round trip does when nothing listens on
    the target address), the handler of [NewProxy] answers with the
    status 502 Bad Gateway and writes neither header nor body: the
    transport's error goes to the error log only. *)
Theorem unreachable_origin_is_bad_gateway
    `{RoundTripper} `{Upgrader} `{mime.MediaTypes}
    (default_transport : Transport.t)
    (target : url.URL) (rw : ResponseWriter.t) (req : Request.t) :
  ResponseWriter.status rw = None ->
  (forall out,
      outbound (internal.NewProxy target) req = inl out ->
      exists err,
        RoundTrip
          (default default_transport (Transport (internal.NewProxy target)))
          out = inr err) ->
  let r := ServeHTTP default_transport (internal.NewProxy target) rw req in
  ResponseWriter.status (writer r) = Some StatusBadGateway
  /\ ResponseWriter.status (writer r) = Some 502
  /\ ResponseWriter.body (writer r) = ResponseWriter.body rw
  /\ ResponseWriter.Header (writer r) = ResponseWriter.Header rw.
Proof.
  intros Hfresh Hfail r. subst r. unfold ServeHTTP.
  destruct (outbound (internal.NewProxy target) req) as [out|e] eqn:Hout.
  - destruct (Hfail out eq_refl) as [err ->].
    unfold getErrorHandler, internal.NewProxy. cbn [ErrorHandler].
    unfold defaultErrorHandler. cbn [writer].
    unfold ResponseWriter.WriteHeader. rewrite Hfresh.
    repeat split.
  - unfold getErrorHandler, internal.NewProxy. cbn [ErrorHandler].
    unfold defaultErrorHandler. cbn [writer].
    unfold ResponseWriter.WriteHeader. rewrite Hfresh.
    repeat split.
Qed.

(** With nothing listening on 127.0.0.1:8000, [GET /anything?x=1]
    is answered with 502 and an empty body. *)
Lemma unreachable_origin_is_bad_gateway_witness :
  let r := @ServeHTTP samples.no_origin samples.no_upgrade samples.no_types
             samples.DefaultTransport
             (internal.NewProxy samples.default_target)
             ResponseWriter.fresh samples.plain_request in
  ResponseWriter.status (writer r) = Some StatusBadGateway
  /\ ResponseWriter.status (writer r) = Some 502
  /\ ResponseWriter.body (writer r) = ""
  /\ ResponseWriter.Header (writer r) = ∅.
Proof.
  apply (@unreachable_origin_is_bad_gateway
           samples.no_origin samples.no_upgrade samples.no_types
           samples.DefaultTransport
           samples.default_target ResponseWriter.fresh
           samples.plain_request).
  - reflexivity.
  - intros out _. exists samples.refused. reflexivity.
Defined.

End forwarding.

(** ** The configuration of the engine *)

Section configuration.
Import http httputil time.

(** C6.  For every target, the transport of [NewProxy] dials with a
    timeout of 30 s and keep-alive probes every 30 s, waits 10 s for a
    TLS handshake, 10 s for the response headers and 1 s for
    "100 Continue". *)
Theorem NewProxy_transport_timeouts (target : url.URL) :
  exists (transport : Transport.t) (dialer : net.Dialer),
    Transport (internal.NewProxy target) = Some transport
    /\ Transport.Dial transport = Some dialer
    /\ net.Timeout dialer = 30 * Second
    /\ net.KeepAlive dialer = 30 * Second
    /\ Transport.TLSHandshakeTimeout transport = 10 * Second
    /\ Transport.ResponseHeaderTimeout transport = 10 * Second
    /\ Transport.ExpectContinueTimeout transport = 1 * Second
    /\ Second = 1000000000.
Proof.
  eexists. eexists. split; [reflexivity|]. split; [reflexivity|].
  repeat split.
Qed.

(** C7.  For every target, the server of [NewServer] reads request
    headers within 2 s and a whole request within 5 s, writes within
    10 s and closes a connection idle for 30 s; [Listen] leaves this
    configuration as it is. *)
Theorem NewServer_timeouts (target : url.URL) :
  exists server : Server.t ReverseProxy,
    internal.srv (internal.NewServer target) = Some server
    /\ Server.ReadHeaderTimeout server = 2 * Second
    /\ Server.ReadTimeout server = 5 * Second
    /\ Server.WriteTimeout server = 10 * Second
    /\ Server.IdleTimeout server = 30 * Second
    /\ Server.Handler server = internal.NewProxy target
    /\ forall (network : net.Network) (address : string),
        internal.srv
          (snd (internal.Listen (internal.NewServer target) address))
        = Some server.
Proof.
  eexists. split; [reflexivity|]. repeat split.
  intros network address. unfold internal.Listen.
  destruct (net.Listen "tcp" address); reflexivity.
Qed.

End configuration.

(** ** Flushing while the body is copied *)

Section flushing.
Import http httputil time.







Lemma filter_fire (pending : option Duration) (now : Duration) :
  List.filter is_Wrote (fire pending now).1 = [].
Proof.
  unfold fire. destruct pending as [due|]; [|reflexivity].
  destruct (due <=? now); reflexivity.
Qed.

(** Whatever the interval, the writes are the reads, each at the time
    it returns. *)
Lemma copyBuffer_writes (latency : Duration) (chunks : list Response.chunk) :
  forall (pending : option Duration) (now : Duration) (rw : ResponseWriter.t),
    List.filter is_Wrote (copyBuffer latency pending now rw chunks).1.1.2
    = arrivals now chunks.
Proof.
  induction chunks as [|c cs IH]; intros pending now rw; [reflexivity|].
  cbn [copyBuffer arrivals].
  pose proof (filter_fire pending (now + Response.after c)) as Hfired.
  destruct (fire pending (now + Response.after c)) as [fired pending1].
  cbn [fst] in Hfired.
  destruct (String.eqb (Response.data c) "").
  - specialize (IH pending1 (now + Response.after c) rw).
    destruct (copyBuffer latency pending1 (now + Response.after c) rw cs)
      as [[[rw' evs] p'] t'].
    cbn [fst snd] in *. rewrite List.filter_app, Hfired. exact IH.
  - assert (Hflushed :
      forall pending1,
        List.filter is_Wrote
          (if latency =? 0 then ([], pending1)
           else after_Write latency pending1 (now + Response.after c)).1
        = []).
    { intros q. unfold after_Write.
      destruct (latency =? 0); [reflexivity|].
      destruct (latency <? 0); [reflexivity|]. destruct q; reflexivity. }
    specialize (Hflushed pending1).
    destruct (if latency =? 0 then ([], pending1)
              else after_Write latency pending1 (now + Response.after c))
      as [flushed pending2].
    cbn [fst] in Hflushed.
    specialize (IH pending2 (now + Response.after c)
                  (ResponseWriter.Write rw (Response.data c))).
    destruct (copyBuffer latency pending2 (now + Response.after c)
                (ResponseWriter.Write rw (Response.data c)) cs)
      as [[[rw' evs] p'] t'].
    cbn [fst snd] in *. rewrite List.filter_app, Hfired. cbn [app List.filter is_Wrote].
    rewrite List.filter_app, Hflushed. cbn [app]. rewrite IH. reflexivity.
Qed.

(** The copy ends when the last read has returned. *)
Lemma copyBuffer_time (latency : Duration) (chunks : list Response.chunk) :
  forall (pending : option Duration) (now : Duration) (rw : ResponseWriter.t)
         (rest : Duration),
    (copyBuffer latency pending now rw chunks).2 + rest
    = now + foldr (fun c t => Response.after c + t) rest chunks.
Proof.
  induction chunks as [|c cs IH]; intros pending now rw rest;
    [reflexivity|].
  cbn [copyBuffer foldr].
  destruct (fire pending (now + Response.after c)) as [fired pending1].
  destruct (String.eqb (Response.data c) "").
  - specialize (IH pending1 (now + Response.after c) rw rest).
    destruct (copyBuffer latency pending1 (now + Response.after c) rw cs)
      as [[[rw' evs] p'] t'].
    cbn [fst snd] in *. lia.
  - destruct (if latency =? 0 then ([], pending1)
              else after_Write latency pending1 (now + Response.after c))
      as [flushed pending2].
    specialize (IH pending2 (now + Response.after c)
                  (ResponseWriter.Write rw (Response.data c)) rest).
    destruct (copyBuffer latency pending2 (now + Response.after c)
                (ResponseWriter.Write rw (Response.data c)) cs)
      as [[[rw' evs] p'] t'].
    cbn [fst snd] in *. lia.
Qed.

(** The writer after the copy: the header it had, the status it had
    once it has one, and the bytes of the reads after those it had. *)
Lemma copyBuffer_writer (latency : Duration) (chunks : list Response.chunk) :
  forall (pending : option Duration) (now : Duration) (rw : ResponseWriter.t),
    let rw' := (copyBuffer latency pending now rw chunks).1.1.1 in
    ResponseWriter.Header rw' = ResponseWriter.Header rw
    /\ ResponseWriter.body rw'
       = ResponseWriter.body rw
         +:+ foldr (fun c s => Response.data c +:+ s) "" chunks
    /\ forall code, ResponseWriter.status rw = Some code ->
                    ResponseWriter.status rw' = Some code.
Proof.
  induction chunks as [|c cs IH]; intros pending now rw; cbv zeta.
  - cbn [copyBuffer fst snd foldr]. rewrite append_empty_r. auto.
  - cbn [copyBuffer foldr].
    destruct (fire pending (now + Response.after c)) as [fired pending1].
    destruct (String.eqb_spec (Response.data c) "") as [Hempty|_].
    + specialize (IH pending1 (now + Response.after c) rw).
      destruct (copyBuffer latency pending1 (now + Response.after c) rw cs)
        as [[[rw' evs] p'] t'].
      cbn [fst snd] in *. rewrite Hempty. exact IH.
    + destruct (if latency =? 0 then ([], pending1)
                else after_Write latency pending1 (now + Response.after c))
        as [flushed pending2].
      specialize (IH pending2 (now + Response.after c)
                    (ResponseWriter.Write rw (Response.data c))).
      destruct (copyBuffer latency pending2 (now + Response.after c)
                  (ResponseWriter.Write rw (Response.data c)) cs)
        as [[[rw' evs] p'] t'].
      cbn [fst snd] in *. destruct IH as (Hh & Hb & Hs).
      split; [exact Hh|]. split.
      * rewrite Hb. cbn [ResponseWriter.Write ResponseWriter.body].
        now rewrite append_assoc.
      * intros code Hcode. apply Hs.
        cbn [ResponseWriter.Write ResponseWriter.status].
        rewrite Hcode. reflexivity.
Qed.

Lemma copyResponse_eq (rw : ResponseWriter.t) (res : Response.t)
    (interval : Duration) :
  copyResponse rw res interval
  = let pending :=
      if interval =? 0 then None else Some (Z.max 0 interval) in
    let r := copyBuffer interval pending 0 rw (Response.Body res) in
    (r.1.1.1, (r.1.1.2 ++ (fire r.1.2 (body_time res)).1)%list,
     body_time res, Response.BodyErr res).
Proof.
  unfold copyResponse, body_time. cbv zeta.
  match goal with
  | |- context [copyBuffer ?l ?q ?n ?w ?cs] =>
      pose proof (copyBuffer_time l cs q n w (Response.BodyEnd res)) as Htime;
      destruct (copyBuffer l q n w cs) as [[[rw' evs] p'] t']
  end.
  cbn [fst snd] in *. rewrite Htime, Z.add_0_l. reflexivity.
Qed.



Lemma copyResponse_writes (rw : ResponseWriter.t) (res : Response.t)
    (interval : Duration) :
  List.filter is_Wrote (copyResponse rw res interval).1.1.2
  = arrivals 0 (Response.Body res).
Proof.
  rewrite copyResponse_eq. cbv zeta. cbn [fst snd].
  rewrite List.filter_app, filter_fire, app_nil_r.
  apply copyBuffer_writes.
Qed.

Lemma WriteHeader_panics_with_Header (rw : ResponseWriter.t)
    (h : Header) (code : Z) :
  ResponseWriter.WriteHeader_panics (ResponseWriter.with_Header rw h) code
  = ResponseWriter.WriteHeader_panics rw code.
Proof. reflexivity. Qed.






(** The events of four copies, in nanoseconds: of the response that
    declares its length, of the chunked one, of an event stream, and
    of an event stream whose Connection header names Content-Type, so
    that the proxy does not see its media type. *)
Example dripped_and_streamed :
  copied (@ServeHTTP samples.dripping_origin samples.no_upgrade
            samples.bare_types samples.DefaultTransport
            (internal.NewProxy samples.default_target)
            ResponseWriter.fresh samples.plain_request)
  = [Flushed 10000000;
     Wrote 1000000000 "*"; Flushed 1010000000;
     Wrote 2000000000 "*"; Flushed 2010000000;
     Wrote 3000000000 "*"; Flushed 3010000000;
     Wrote 4000000000 "*"]
  /\ copied (@ServeHTTP samples.streaming_origin samples.no_upgrade
               samples.bare_types samples.DefaultTransport
               (internal.NewProxy samples.default_target)
               ResponseWriter.fresh samples.plain_request)
     = [Flushed 0;
        Wrote 1000000000 "*"; Flushed 1000000000;
        Wrote 2000000000 "*"; Flushed 2000000000;
        Wrote 3000000000 "*"; Flushed 3000000000;
        Wrote 4000000000 "*"; Flushed 4000000000]
  /\ copied (@ServeHTTP samples.event_origin samples.no_upgrade
               samples.bare_types samples.DefaultTransport
               (internal.NewProxy samples.default_target)
               ResponseWriter.fresh samples.plain_request)
     = [Flushed 0;
        Wrote 1000000000 "*"; Flushed 1000000000;
        Wrote 2000000000 "*"; Flushed 2000000000]
  /\ copied (@ServeHTTP samples.hidden_event_origin samples.no_upgrade
               samples.bare_types samples.DefaultTransport
               (internal.NewProxy samples.default_target)
               ResponseWriter.fresh samples.plain_request)
     = [Flushed 10000000;
        Wrote 1000000000 "*"; Flushed 1010000000;
        Wrote 2000000000 "*"].
Proof. repeat split; vm_compute; reflexivity. Qed.

End flushing.

(** ** The server lifecycle *)

Section lifecycle.
Import http.

(** [fmt.Sprintf("http://%s", a)] *)
Lemma Sprintf_http (a : string) :
  fmt.Sprintf "http://%s" [a] = "http://" +:+ a.
Proof.
  change (fmt.Sprintf "http://%s" [a]) with ("http://" +:+ (a +:+ "")).
  now rewrite append_empty_r.
Qed.

(** The accept loop never returns nil. *)
Lemma accept_loop_not_nil {H : Type} (server : Server.t H)
    (evs : list accept_event) (e : error) (server' : Server.t H) :
  accept_loop server evs = (Returned e, server') -> e <> None.
Proof.
  induction evs as [|ev evs IH]; simpl; [discriminate|].
  destruct ev as [|err|]; [exact IH| |intros [= <- _]; discriminate].
  destruct (Temporary err); [exact IH | intros [= <- _]; discriminate].
Qed.

(** Whenever [Serve] returns, it returns an error. *)
Lemma Serve_never_returns_nil (s s' : internal.Server)
    (evs : list accept_event) (e : error) :
  internal.Serve s evs = (Returned e, s') -> e <> None.
Proof.
  unfold internal.Serve, internal.srv_Serve.
  destruct (internal.listener s) as [l|]; [|intros [= <- _]; discriminate].
  destruct (internal.srv s) as [server|]; [|discriminate].
  unfold Serve. destruct (Server.inShutdown server).
  - intros [= <- _]. discriminate.
  - destruct (accept_loop server evs) as [r server'] eqn:Hloop.
    intros [= -> _]. exact (accept_loop_not_nil _ _ _ _ Hloop).
Qed.

(** While connections are only accepted, the loop goes on. *)
Lemma accept_loop_Accepted {H : Type} (server : Server.t H) (n : nat)
    (evs : list accept_event) :
  accept_loop server (replicate n Accepted ++ evs) = accept_loop server evs.
Proof. induction n as [|n IH]; [reflexivity | exact IH]. Qed.

(** On a bound server of [NewServer] that has accepted any number of
    connections, a [Shutdown] makes [Serve] return the error
    [http.ErrServerClosed], "http: Server closed", and not nil. *)
Lemma Serve_returns_ErrServerClosed_on_Shutdown
    (target : url.URL) (l : net.Listener) (n : nat)
    (later : list accept_event) :
  let s := {| internal.srv := internal.srv (internal.NewServer target);
              internal.listener := Some l |} in
  fst (internal.Serve s (replicate n Accepted ++ ShutdownCalled :: later))
  = Returned (Some ErrServerClosed)
  /\ Error ErrServerClosed = "http: Server closed".
Proof.
  split; [|reflexivity].
  unfold internal.Serve, internal.srv_Serve, internal.NewServer, Serve.
  cbn [internal.listener internal.srv Server.inShutdown].
  rewrite accept_loop_Accepted. reflexivity.
Qed.

(** C4, what the code does in the lifecycle test: [Shutdown] with no
    deadline and nothing to drain completes and returns nil, yet
    [Serve] returns the error [http.ErrServerClosed], not nil, and
    [main], which takes any error of [ListenAndServe] for a failure,
    leaves with status 1 instead of "Server stopped cleanly". *)
Example clean_shutdown_ends_in_an_error `{rand.Source} :
  fst (internal.Shutdown samples.bound_server None 0) = Returned None
  /\ fst (internal.Serve samples.bound_server [Accepted; ShutdownCalled])
     = Returned (Some ErrServerClosed)
  /\ @main.exit_status samples.free_ports samples.default_target
       "127.0.0.1:8001" [Accepted; ShutdownCalled] = Returned 1.
Proof. repeat split. Qed.

(** C5.  On a server whose listener is nil, [Serve] returns at once
    the error "must call Listen() before Serve()"; the server is left
    as it was, without a listener. *)
Theorem Serve_before_Listen (s : internal.Server)
    (evs : list accept_event) :
  internal.listener s = None ->
  exists err : error_value,
    internal.Serve s evs = (Returned (Some err), s)
    /\ Error err = "must call Listen() before Serve()"
    /\ internal.listener (snd (internal.Serve s evs)) = None.
Proof.
  intros Hnil. unfold internal.Serve. rewrite Hnil.
  eexists. split; [reflexivity|]. split; [reflexivity | exact Hnil].
Qed.

(** The server of the precondition test. *)
Lemma Serve_before_Listen_witness :
  exists err : error_value,
    internal.Serve (internal.NewServer samples.default_target) []
    = (Returned (Some err), internal.NewServer samples.default_target)
    /\ Error err = "must call Listen() before Serve()"
    /\ internal.listener
         (snd (internal.Serve
                 (internal.NewServer samples.default_target) []))
       = None.
Proof.
  apply (Serve_before_Listen (internal.NewServer samples.default_target) []).
  reflexivity.
Defined.

(** C9.  For every server, fresh or not, every address and every
    course of the accept loop, [ListenAndServe] returns the error and
    leaves the server that [Listen] followed on success by [Serve]
    does, whether the bind fails or succeeds. *)
Theorem ListenAndServe_is_Listen_then_Serve `{net.Network}
    (s : internal.Server) (address : string) (evs : list accept_event) :
  internal.ListenAndServe s address evs = Listen_then_Serve s address evs
  /\ forall target : url.URL,
      internal.ListenAndServe (internal.NewServer target) address evs
      = Listen_then_Serve (internal.NewServer target) address evs.
Proof.
  assert (Heq : forall s0 : internal.Server,
             internal.ListenAndServe s0 address evs
             = Listen_then_Serve s0 address evs).
  { intros s0. unfold internal.ListenAndServe, Listen_then_Serve.
    unfold internal.Listen.
    destruct (net.Listen "tcp" address) as [l|err]; reflexivity. }
  split; [apply Heq | intros target; apply Heq].
Qed.

(** C10.  On a server whose listener is nil, [URL] panics with a nil
    dereference; on a server with a listener it returns "http://"
    followed by the listener's address, and so it does after a
    [Listen] that succeeded. *)
Theorem URL_needs_a_listener (s : internal.Server) :
  (internal.listener s = None ->
   internal.URL s = Panicked nil_dereference)
  /\ (forall l : net.Listener,
        internal.listener s = Some l ->
        internal.URL s = Returned ("http://" +:+ net.Addr l))
  /\ (forall (network : net.Network) (address : string)
             (s' : internal.Server),
        internal.Listen s address = (None, s') ->
        exists l : net.Listener,
          net.Listen "tcp" address = inl l
          /\ internal.URL s' = Returned ("http://" +:+ net.Addr l)).
Proof.
  split; [|split].
  - intros Hnil. unfold internal.URL. rewrite Hnil. reflexivity.
  - intros l Hl. unfold internal.URL. rewrite Hl, Sprintf_http. reflexivity.
  - intros network address s'. unfold internal.Listen.
    destruct (net.Listen "tcp" address) as [l|err]; [|discriminate].
    intros [= <-]. exists l. split; [reflexivity|].
    unfold internal.URL. cbn [internal.listener].
    rewrite Sprintf_http. reflexivity.
Qed.

(** The fresh server panics; the server of the lifecycle test,
    bound to the ephemeral port 43521, answers with its URL. *)
Lemma URL_needs_a_listener_witness :
  internal.URL (internal.NewServer samples.default_target)
  = Panicked nil_dereference
  /\ internal.URL samples.bound_server
     = Returned "http://127.0.0.1:43521"
  /\ exists l : net.Listener,
      @net.Listen samples.free_ports "tcp" "127.0.0.1:0" = inl l
      /\ internal.URL samples.bound_server
         = Returned ("http://" +:+ net.Addr l).
Proof.
  split; [|split].
  - apply (URL_needs_a_listener (internal.NewServer samples.default_target)).
    reflexivity.
  - apply (proj1 (proj2 (URL_needs_a_listener samples.bound_server))
             {| net.Addr := "127.0.0.1:43521" |}).
    reflexivity.
  - apply (proj2 (proj2 (URL_needs_a_listener
                           (internal.NewServer samples.default_target)))
             samples.free_ports "127.0.0.1:0" samples.bound_server).
    reflexivity.
Defined.

End lifecycle.

(** ** Headers of the outbound request *)

Section outbound_headers.
Import http httputil.

Lemma lookup_Del (h : Header) (x k : string) :
  Del h x !! k
  = if decide (textproto.CanonicalMIMEHeaderKey x = k) then None else h !! k.
Proof. unfold Del. apply lookup_delete. Qed.

Lemma lookup_Set (h : Header) (x v k : string) :
  Set_ h x v !! k
  = if decide (textproto.CanonicalMIMEHeaderKey x = k) then Some [v]
    else h !! k.
Proof. unfold Set_. apply lookup_insert. Qed.

Lemma foldl_Del_None (dels : list string) (h : Header) (k : string) :
  h !! k = None -> foldl Del h dels !! k = None.
Proof.
  revert h. induction dels as [|d dels IH]; intros h Hk; [exact Hk|].
  simpl. apply IH. rewrite lookup_Del. destruct (decide _); [reflexivity|exact Hk].
Qed.

Lemma foldl_Del_in (dels : list string) (h : Header) (k : string) :
  List.In k (map textproto.CanonicalMIMEHeaderKey dels) ->
  foldl Del h dels !! k = None.
Proof.
  revert h. induction dels as [|d dels IH]; intros h; simpl; [tauto|].
  intros [Hd|Hin]; [|exact (IH _ Hin)].
  apply foldl_Del_None. rewrite lookup_Del.
  destruct (decide _); [reflexivity|contradiction].
Qed.

Lemma foldl_Del_out (dels : list string) (h : Header) (k : string) :
  ~ List.In k (map textproto.CanonicalMIMEHeaderKey dels) ->
  foldl Del h dels !! k = h !! k.
Proof.
  revert h. induction dels as [|d dels IH]; intros h Hout; [reflexivity|].
  simpl in *. rewrite IH by tauto. rewrite lookup_Del.
  destruct (decide _) as [Heq|]; [|reflexivity]. exfalso. tauto.
Qed.

(** Skipping the empty names is filtering them out. *)
Lemma foldl_Del_nonempty (names : list string) (h : Header) :
  foldl (fun h sf => if String.eqb sf "" then h else Del h sf) h names
  = foldl Del h (List.filter (fun sf => negb (String.eqb sf "")) names).
Proof.
  revert h. induction names as [|sf names IH]; intros h; [reflexivity|].
  simpl. destruct (String.eqb sf ""); simpl; apply IH.
Qed.

Lemma removeHopByHopHeaders_eq (h : Header) :
  removeHopByHopHeaders h
  = foldl Del h
      (List.filter (fun sf => negb (String.eqb sf "")) (named_by_Connection h)
       ++ hopHeaders).
Proof.
  unfold removeHopByHopHeaders, named_by_Connection.
  rewrite foldl_Del_nonempty, foldl_app. reflexivity.
Qed.

(** What [outbound] computes for the proxy of [NewProxy]. *)
Lemma outbound_eq (target : url.URL) (req : Request.t) :
  outbound (internal.NewProxy target) req
  = if negb (IsPrint (upgradeType (Request.Header req)))
    then inr (ErrInvalidProtocol (upgradeType (Request.Header req)))
    else
      inl (let o := Out (SetURL
                           (SetXForwarded
                              {| In := req;
                                 Out := before_rewrite req
                                          (header_before_rewrite req) |})
                           target) in
           match Request.Header o !! "User-Agent" with
           | Some _ => o
           | None => with_Header o (Set_ (Request.Header o) "User-Agent" "")
           end).
Proof. reflexivity. Qed.

(** Apart from User-Agent, the outbound header is the one that
    [SetXForwarded] leaves. *)
Lemma outbound_hook_header (target : url.URL) (req out : Request.t)
    (k : string) :
  outbound (internal.NewProxy target) req = inl out ->
  k <> "User-Agent" ->
  Request.Header out !! k
  = Request.Header
      (Out (SetXForwarded
              {| In := req;
                 Out := before_rewrite req (header_before_rewrite req) |}))
    !! k.
Proof.
  rewrite outbound_eq. destruct (negb _); [discriminate|].
  intros Heq Hk.
  apply (f_equal (fun x => match x with inl o => o | inr _ => out end))
    in Heq.
  cbv beta iota in Heq. subst out. cbv zeta.
  unfold SetURL, rewriteRequestURL. cbn [Out].
  destruct (joinURLPath _ _).
  change (Request.Header (with_Host (with_URL ?r _) _))
    with (Request.Header r).
  destruct (_ !! "User-Agent"); [reflexivity|].
  cbn [Request.Header with_Header]. rewrite lookup_Set.
  destruct (decide _) as [Heq|_]; [|reflexivity].
  exfalso. apply Hk. symmetry. exact Heq.
Qed.

(** A key that the hook and the User-Agent default do not write is in
    the outbound header what it is before the hook runs. *)
Lemma outbound_lookup (target : url.URL) (req out : Request.t) (k : string) :
  outbound (internal.NewProxy target) req = inl out ->
  ~ List.In k ["User-Agent"; "X-Forwarded-For"; "X-Forwarded-Host";
               "X-Forwarded-Proto"] ->
  Request.Header out !! k = header_before_rewrite req !! k.
Proof.
  intros Hout Hk. simpl in Hk.
  rewrite (outbound_hook_header target req out k Hout)
    by (intros Hc; apply Hk; left; symmetry; exact Hc).
  unfold SetXForwarded. cbn [In Out Request.Header with_Header].
  change (Request.Header (before_rewrite req ?h)) with h.
  destruct (net.SplitHostPort _) as [[ip port]|e];
    destruct (Request.TLS req);
    rewrite ?lookup_Set, ?lookup_Del;
    repeat (destruct (decide _) as [Heq|_];
            [exfalso; vm_compute in Heq; tauto|]);
    reflexivity.
Qed.

End outbound_headers.

(** ** Addresses of the form "host:port" *)

Section addresses.

Lemma ContainsByte_cons (a c : ascii) (s : string) :
  strings.ContainsByte (String a s) c
  = Ascii.eqb a c || strings.ContainsByte s c.
Proof.
  unfold strings.ContainsByte. simpl.
  destruct (Ascii.eqb a c); [reflexivity|].
  destruct (strings.IndexByte s c); reflexivity.
Qed.

Lemma ContainsByte_app (a b : string) (c : ascii) :
  strings.ContainsByte (a +:+ b) c
  = strings.ContainsByte a c || strings.ContainsByte b c.
Proof.
  induction a as [|x a IH]; [reflexivity|].
  change (String x a +:+ b) with (String x (a +:+ b)).
  rewrite !ContainsByte_cons, IH. apply orb_assoc.
Qed.

Lemma LastIndexByte_absent (s : string) (c : ascii) :
  strings.ContainsByte s c = false -> strings.LastIndexByte s c = None.
Proof.
  induction s as [|a s IH]; [reflexivity|].
  rewrite ContainsByte_cons. intros [Ha Hs]%orb_false_elim.
  simpl. rewrite (IH Hs), Ha. reflexivity.
Qed.

(** The last colon of "host:port" is the one after the host. *)
Lemma LastIndexByte_colon (host port : string) :
  strings.ContainsByte port ":" = false ->
  strings.LastIndexByte (host +:+ String ":" port) ":"
  = Some (String.length host).
Proof.
  intros Hport. induction host as [|a host IH].
  - simpl. rewrite (LastIndexByte_absent _ _ Hport). reflexivity.
  - change (String a host +:+ String ":" port)
      with (String a (host +:+ String ":" port)).
    simpl. simpl in IH. rewrite IH. reflexivity.
Qed.

Lemma take_app (a b : string) : strings.take (String.length a) (a +:+ b) = a.
Proof.
  unfold strings.take. induction a as [|c a IH]; [destruct b; reflexivity|].
  simpl. simpl in IH. now rewrite IH.
Qed.

Lemma substring_all (s : string) : String.substring 0 (String.length s) s = s.
Proof. induction s as [|c s IH]; [reflexivity|]. simpl. now rewrite IH. Qed.

Lemma drop_app (a b : string) :
  strings.drop (String.length a + 1) (a +:+ String ":" b) = b.
Proof.
  unfold strings.drop. rewrite length_append.
  replace (String.length a + String.length (String ":" b)
           - (String.length a + 1))%nat with (String.length b)
    by (simpl; lia).
  induction a as [|c a IH].
  - simpl. apply substring_all.
  - simpl. simpl in IH. exact IH.
Qed.

Lemma drop_0 (s : string) : strings.drop 0 s = s.
Proof. unfold strings.drop. rewrite Nat.sub_0_r. apply substring_all. Qed.

Lemma HasPrefix_bracket (host rest : string) :
  strings.ContainsByte host "[" = false ->
  strings.HasPrefix (host +:+ String ":" rest) "[" = false.
Proof.
  destruct host as [|a host]; [reflexivity|].
  rewrite ContainsByte_cons. intros [Ha _]%orb_false_elim.
  simpl. rewrite Ha. reflexivity.
Qed.

(** [SplitHostPort] splits "host:port" into its host and its port when
    neither has a colon or a bracket. *)
Lemma SplitHostPort_plain (host port : string) :
  plain host = true -> plain port = true ->
  net.SplitHostPort (host +:+ ":" +:+ port) = inl (host, port).
Proof.
  unfold plain.
  intros [[Hhc Hho]%andb_prop Hhb]%andb_prop
         [[Hpc Hpo]%andb_prop Hpb]%andb_prop.
  apply negb_true_iff in Hhc, Hho, Hhb, Hpc, Hpo, Hpb.
  change (host +:+ ":" +:+ port) with (host +:+ String ":" port).
  unfold net.SplitHostPort.
  rewrite (LastIndexByte_colon host port Hpc).
  rewrite (HasPrefix_bracket host port Hho).
  rewrite take_app, Hhc, drop_0, drop_app.
  rewrite !ContainsByte_app, !ContainsByte_cons, Hho, Hhb, Hpo, Hpb.
  reflexivity.
Qed.

End addresses.

(** ** Queries that parse *)

Section queries.
Import httputil.

(** The three cases of the scan. *)
Lemma parsable_cons (c : ascii) (r : string) :
  parsable (String c r)
  = if Ascii.eqb c ";" then false
    else if Ascii.eqb c "%" then
      match r with
      | String h1 (String h2 r') => url.ishex h1 && url.ishex h2 && parsable r'
      | _ => false
      end
    else parsable r.
Proof. destruct c as [[] [] [] [] [] [] [] []]; reflexivity. Qed.

Lemma parsable_app_le (n : nat) (a b : string) :
  (String.length a <= n)%nat ->
  parsable a = true -> parsable b = true -> parsable (a +:+ b) = true.
Proof.
  revert a. induction n as [|n IH]; intros a Hn Ha Hb.
  - destruct a; [exact Hb | simpl in Hn; lia].
  - destruct a as [|c a]; [exact Hb|].
    change (String c a +:+ b) with (String c (a +:+ b)).
    rewrite parsable_cons in Ha |- *.
    destruct (Ascii.eqb c ";"); [discriminate|].
    destruct (Ascii.eqb c "%").
    + destruct a as [|h1 [|h2 a]]; try discriminate.
      change (String h1 (String h2 a) +:+ b)
        with (String h1 (String h2 (a +:+ b))).
      apply andb_prop in Ha as [Hh Ha]. rewrite Hh. simpl.
      apply IH; [simpl in Hn; lia | exact Ha | exact Hb].
    + apply IH; [simpl in Hn; lia | exact Ha | exact Hb].
Qed.

Lemma parsable_app (a b : string) :
  parsable a = true -> parsable b = true -> parsable (a +:+ b) = true.
Proof. apply (parsable_app_le (String.length a)). lia. Qed.

(** What [QueryEscape] writes has no semicolon and only whole escapes. *)
Lemma parsable_QueryEscape (s : string) : parsable (url.QueryEscape s) = true.
Proof.
  unfold url.QueryEscape. induction s as [|c s IH]; [reflexivity|].
  destruct c as [[] [] [] [] [] [] [] []]; exact IH.
Qed.

Lemma parsable_Join (l : list string) :
  Forall (fun s => parsable s = true) l -> parsable (strings.Join l "&") = true.
Proof.
  induction 1 as [|s l Hs Hl IH]; [reflexivity|].
  destruct l as [|s' l]; [exact Hs|].
  change (strings.Join (s :: s' :: l) "&")
    with (s +:+ "&" +:+ strings.Join (s' :: l) "&").
  apply parsable_app; [exact Hs|]. apply (parsable_app "&"); [reflexivity|].
  exact IH.
Qed.

Lemma parsable_Encode (v : gmap string (list string)) :
  parsable (url.Encode v) = true.
Proof.
  unfold url.Encode. apply parsable_Join.
  apply List.Forall_forall. intros s Hs.
  apply in_flat_map in Hs as (k & _ & Hs).
  apply in_map_iff in Hs as (x & <- & _).
  apply parsable_app; [apply parsable_QueryEscape|].
  apply (parsable_app "="); [reflexivity | apply parsable_QueryEscape].
Qed.

(** Whatever the query, the cleaned query parses. *)
Lemma parsable_cleanQueryParams (s : string) :
  parsable (cleanQueryParams s) = true.
Proof.
  unfold cleanQueryParams. destruct (parsable s) eqn:Hs; [exact Hs|].
  apply parsable_Encode.
Qed.

End queries.

(** ** More on the forwarding engine *)

Section engine.
Import http httputil.

(** The URL of the outbound request. *)
Lemma outbound_URL (target : url.URL) (req out : Request.t) :
  outbound (internal.NewProxy target) req = inl out ->
  let u := with_RawQuery (Request.URL req)
             (cleanQueryParams (url.RawQuery (Request.URL req))) in
  Request.URL out
  = {| url.Scheme := url.Scheme target;
       url.Host := url.Host target;
       url.Path := fst (joinURLPath target u);
       url.RawPath := snd (joinURLPath target u);
       url.RawQuery :=
         if String.eqb (url.RawQuery target) ""
            || String.eqb (url.RawQuery u) ""
         then url.RawQuery target +:+ url.RawQuery u
         else url.RawQuery target +:+ "&" +:+ url.RawQuery u |}.
Proof.
  intros (h & _ & HURL & _)%outbound_inv.
  rewrite HURL, SetURL_URL. reflexivity.
Qed.

(** X1.  The proxy of [NewProxy] builds an outbound request for every
    inbound request, except for one that asks to switch to a protocol
    whose name is not printable ASCII; in particular it builds one
    whenever the inbound request has no Connection header. *)
Theorem outbound_unless_invalid_upgrade (target : url.URL) (req : Request.t) :
  (IsPrint (upgradeType (Request.Header req)) = true ->
   exists out, outbound (internal.NewProxy target) req = inl out)
  /\ (IsPrint (upgradeType (Request.Header req)) = false ->
      outbound (internal.NewProxy target) req
      = inr (ErrInvalidProtocol (upgradeType (Request.Header req))))
  /\ (index (Request.Header req) "Connection" = [] ->
      exists out, outbound (internal.NewProxy target) req = inl out).
Proof.
  rewrite outbound_eq. split; [|split].
  - intros ->. eexists. reflexivity.
  - intros ->. reflexivity.
  - intros Hnone. unfold upgradeType. rewrite Hnone. eexists. reflexivity.
Qed.

(** [GET /anything?x=1] has no Connection header and is forwarded. *)
Lemma outbound_unless_invalid_upgrade_witness :
  exists out,
    outbound (internal.NewProxy samples.default_target) samples.plain_request
    = inl out.
Proof.
  apply (proj2 (proj2 (outbound_unless_invalid_upgrade
                         samples.default_target samples.plain_request))).
  reflexivity.
Defined.

(** X2.  On every outbound request X-Forwarded-Host is the Host of the
    inbound request and X-Forwarded-Proto is "https" or "http" as the
    inbound connection is TLS or not, whatever the client sent under
    these names; a Forwarded header of the client is not passed on. *)
Theorem forwarded_host_and_proto
    (target : url.URL) (req out : Request.t) :
  outbound (internal.NewProxy target) req = inl out ->
  Request.Header out !! "X-Forwarded-Host" = Some [Request.Host req]
  /\ Request.Header out !! "X-Forwarded-Proto"
     = Some [if Request.TLS req then "https" else "http"]
  /\ Request.Header out !! "Forwarded" = None.
Proof.
  intros Hout. split; [|split].
  - rewrite (outbound_hook_header target req out _ Hout) by discriminate.
    unfold SetXForwarded. cbn [In Out Request.Header with_Header].
    destruct (Request.TLS req); rewrite !lookup_Set;
      repeat (destruct (decide _) as [Heq|Hne];
              [try discriminate Heq|try (exfalso; apply Hne; reflexivity)]);
      reflexivity.
  - rewrite (outbound_hook_header target req out _ Hout) by discriminate.
    unfold SetXForwarded. cbn [In Out Request.Header with_Header].
    destruct (Request.TLS req); rewrite !lookup_Set;
      repeat (destruct (decide _) as [Heq|Hne];
              [try discriminate Heq|try (exfalso; apply Hne; reflexivity)]);
      reflexivity.
  - rewrite (outbound_lookup target req out _ Hout)
      by (simpl; intros [H|[H|[H|[H|[]]]]]; discriminate H).
    unfold header_before_rewrite. rewrite !lookup_Del.
    repeat (destruct (decide _) as [Heq|Hne];
            [try discriminate Heq|try (exfalso; apply Hne; reflexivity)]);
      reflexivity.
Qed.

(** The request to proxy.example over TLS, which announces
    X-Forwarded-Host: evil.example and a Forwarded header. *)
Lemma forwarded_host_and_proto_witness :
  exists out,
    outbound (internal.NewProxy samples.default_target) samples.laden_request
    = inl out
    /\ Request.Header out !! "X-Forwarded-Host" = Some ["proxy.example"]
    /\ Request.Header out !! "X-Forwarded-Proto" = Some ["https"]
    /\ Request.Header out !! "Forwarded" = None.
Proof.
  assert (E : exists out,
             outbound (internal.NewProxy samples.default_target)
               samples.laden_request = inl out)
    by (vm_compute; eexists; reflexivity).
  destruct E as [out E]. exists out. split; [exact E|].
  exact (forwarded_host_and_proto _ _ _ E).
Defined.

(** X3.  When the remote address of the inbound request is not of the
    form "host:port", the outbound request has no X-Forwarded-For at
    all, also when the client sent one. *)
Theorem no_forwarded_for_without_port
    (target : url.URL) (req out : Request.t) (e : error_value) :
  outbound (internal.NewProxy target) req = inl out ->
  net.SplitHostPort (Request.RemoteAddr req) = inr e ->
  Request.Header out !! "X-Forwarded-For" = None.
Proof.
  intros Hout Hsplit.
  rewrite (outbound_X_Forwarded_For target req out Hout), Hsplit.
  reflexivity.
Qed.

(** A request from a Unix socket, remote address "@". *)
Lemma no_forwarded_for_without_port_witness :
  exists out,
    outbound (internal.NewProxy samples.default_target) samples.socket_request
    = inl out
    /\ Request.Header out !! "X-Forwarded-For" = None.
Proof.
  assert (E : exists out,
             outbound (internal.NewProxy samples.default_target)
               samples.socket_request = inl out)
    by (vm_compute; eexists; reflexivity).
  destruct E as [out E]. exists out. split; [exact E|].
  apply (no_forwarded_for_without_port _ _ _
           (AddrError net.missingPort "@") E).
  reflexivity.
Defined.

(** X4.  When the remote address is "host:port" with neither colon nor
    bracket in host and port (an IPv4 address or a name, and a port),
    X-Forwarded-For on the outbound request is the host, without the
    port. *)
Theorem forwarded_for_of_plain_address
    (target : url.URL) (req out : Request.t) (host port : string) :
  outbound (internal.NewProxy target) req = inl out ->
  Request.RemoteAddr req = host +:+ ":" +:+ port ->
  plain host = true -> plain port = true ->
  Request.Header out !! "X-Forwarded-For" = Some [host].
Proof.
  intros Hout Haddr Hhost Hport.
  rewrite (outbound_X_Forwarded_For target req out Hout), Haddr.
  rewrite (SplitHostPort_plain host port Hhost Hport). reflexivity.
Qed.

(** The client at 192.0.2.10:40000. *)
Lemma forwarded_for_of_plain_address_witness :
  exists out,
    outbound (internal.NewProxy samples.default_target) samples.laden_request
    = inl out
    /\ Request.Header out !! "X-Forwarded-For" = Some ["192.0.2.10"].
Proof.
  assert (E : exists out,
             outbound (internal.NewProxy samples.default_target)
               samples.laden_request = inl out)
    by (vm_compute; eexists; reflexivity).
  destruct E as [out E]. exists out. split; [exact E|].
  apply (forwarded_for_of_plain_address _ _ _ "192.0.2.10" "40000" E);
    reflexivity.
Defined.

(** Before the hook runs, a key that is neither a forwarding header nor
    one of Te, Connection and Upgrade is what the removal of the
    hop-by-hop headers left. *)
Lemma header_before_rewrite_lookup (req : Request.t) (k : string) :
  ~ List.In k written_by_proxy ->
  header_before_rewrite req !! k
  = removeHopByHopHeaders (Request.Header req) !! k.
Proof.
  intros Hk. unfold written_by_proxy in Hk. simpl in Hk.
  unfold header_before_rewrite. rewrite !lookup_Del.
  repeat (destruct (decide _) as [Heq|_];
          [exfalso; vm_compute in Heq; tauto|]).
  destruct (negb _); destruct (httpguts.HeaderValuesContainsToken _ _);
    rewrite ?lookup_Set;
    repeat (destruct (decide _) as [Heq|_];
            [exfalso; vm_compute in Heq; tauto|]);
    reflexivity.
Qed.

Lemma not_written_not_hook (k : string) :
  ~ List.In k written_by_proxy ->
  ~ List.In k ["User-Agent"; "X-Forwarded-For"; "X-Forwarded-Host";
               "X-Forwarded-Proto"].
Proof. unfold written_by_proxy. simpl. tauto. Qed.

(** X5.  The hop-by-hop headers Proxy-Connection, Keep-Alive,
    Proxy-Authenticate, Proxy-Authorization, Trailer and
    Transfer-Encoding of the inbound request are on no outbound
    request. *)
Theorem hop_by_hop_never_forwarded
    (target : url.URL) (req out : Request.t) (k : string) :
  outbound (internal.NewProxy target) req = inl out ->
  List.In k ["Proxy-Connection"; "Keep-Alive"; "Proxy-Authenticate";
             "Proxy-Authorization"; "Trailer"; "Transfer-Encoding"] ->
  Request.Header out !! k = None.
Proof.
  intros Hout Hk.
  assert (Hw : ~ List.In k written_by_proxy).
  { simpl in Hk. unfold written_by_proxy. simpl.
    intuition (subst; discriminate). }
  rewrite (outbound_lookup target req out k Hout)
    by exact (not_written_not_hook k Hw).
  rewrite (header_before_rewrite_lookup req k Hw).
  rewrite removeHopByHopHeaders_eq. apply foldl_Del_in.
  rewrite map_app. apply in_or_app. right.
  simpl in Hk. vm_compute. tauto.
Qed.

(** Keep-Alive and Proxy-Authorization of the laden request are gone. *)
Lemma hop_by_hop_never_forwarded_witness :
  exists out,
    outbound (internal.NewProxy samples.default_target) samples.laden_request
    = inl out
    /\ Request.Header out !! "Keep-Alive" = None
    /\ Request.Header out !! "Proxy-Authorization" = None.
Proof.
  assert (E : exists out,
             outbound (internal.NewProxy samples.default_target)
               samples.laden_request = inl out)
    by (vm_compute; eexists; reflexivity).
  destruct E as [out E]. exists out. split; [exact E|]. split.
  - apply (hop_by_hop_never_forwarded _ _ _ "Keep-Alive" E).
    simpl. tauto.
  - apply (hop_by_hop_never_forwarded _ _ _ "Proxy-Authorization" E).
    simpl. tauto.
Defined.

End engine.

Section engine_headers.
Import http httputil.

Lemma removeHopByHopHeaders_hop (h : Header) (k : string) :
  List.In k hopHeaders -> removeHopByHopHeaders h !! k = None.
Proof.
  intros Hk. rewrite removeHopByHopHeaders_eq. apply foldl_Del_in.
  rewrite map_app. apply in_or_app. right. exact Hk.
Qed.

(** X6.  Te, Connection and Upgrade on the outbound request are the
    proxy's own: Te is "trailers" when the inbound Te lists the token
    trailers and absent otherwise; Connection is "Upgrade" and Upgrade
    is the requested protocol when the inbound request asks for a
    protocol switch, and both are absent otherwise. *)
Theorem connection_headers_are_rebuilt
    (target : url.URL) (req out : Request.t) :
  outbound (internal.NewProxy target) req = inl out ->
  Request.Header out !! "Te"
  = (if httpguts.HeaderValuesContainsToken
          (index (Request.Header req) "Te") "trailers"
     then Some ["trailers"] else None)
  /\ Request.Header out !! "Connection"
     = (if String.eqb (upgradeType (Request.Header req)) ""
        then None else Some ["Upgrade"])
  /\ Request.Header out !! "Upgrade"
     = (if String.eqb (upgradeType (Request.Header req)) ""
        then None else Some [upgradeType (Request.Header req)]).
Proof.
  intros Hout.
  assert (Hhop : forall k, List.In k ["Te"; "Connection"; "Upgrade"] ->
                 removeHopByHopHeaders (Request.Header req) !! k = None).
  { intros k Hk. apply removeHopByHopHeaders_hop.
    simpl in Hk. unfold hopHeaders. simpl. tauto. }
  split; [|split];
    (rewrite (outbound_lookup target req out _ Hout)
       by (simpl; intros [H|[H|[H|[H|[]]]]]; discriminate H));
    unfold header_before_rewrite; rewrite !lookup_Del;
    repeat (destruct (decide _) as [Heq|_]; [discriminate Heq|]);
    destruct (String.eqb (upgradeType (Request.Header req)) "");
    destruct (httpguts.HeaderValuesContainsToken _ _);
    cbn [negb]; rewrite ?lookup_Set;
    repeat (destruct (decide _) as [Heq|Hne];
            [try discriminate Heq|try (exfalso; apply Hne; reflexivity)]);
    try reflexivity; apply Hhop; simpl; tauto.
Qed.

(** The laden request lists no trailers and asks for no upgrade. *)
Lemma connection_headers_are_rebuilt_witness :
  exists out,
    outbound (internal.NewProxy samples.default_target) samples.laden_request
    = inl out
    /\ Request.Header out !! "Te" = None
    /\ Request.Header out !! "Connection" = None
    /\ Request.Header out !! "Upgrade" = None.
Proof.
  assert (E : exists out,
             outbound (internal.NewProxy samples.default_target)
               samples.laden_request = inl out)
    by (vm_compute; eexists; reflexivity).
  destruct E as [out E]. exists out. split; [exact E|].
  exact (connection_headers_are_rebuilt _ _ _ E).
Defined.

(** X7.  A header that the client names in its Connection header is
    dropped from the outbound request, unless it is one of the headers
    the proxy writes itself. *)
Theorem named_in_Connection_is_dropped
    (target : url.URL) (req out : Request.t) (name : string) :
  outbound (internal.NewProxy target) req = inl out ->
  List.In name (named_by_Connection (Request.Header req)) ->
  name <> "" ->
  ~ List.In (textproto.CanonicalMIMEHeaderKey name) written_by_proxy ->
  Request.Header out !! textproto.CanonicalMIMEHeaderKey name = None.
Proof.
  intros Hout Hname Hne Hw.
  rewrite (outbound_lookup target req out _ Hout)
    by exact (not_written_not_hook _ Hw).
  rewrite (header_before_rewrite_lookup req _ Hw).
  rewrite removeHopByHopHeaders_eq. apply foldl_Del_in.
  rewrite map_app. apply in_or_app. left. apply in_map.
  apply filter_In. split; [exact Hname|].
  apply negb_true_iff. apply String.eqb_neq. exact Hne.
Qed.

(** "Connection: keep-alive, x-secret" removes X-Secret. *)
Lemma named_in_Connection_is_dropped_witness :
  exists out,
    outbound (internal.NewProxy samples.default_target) samples.laden_request
    = inl out
    /\ Request.Header samples.laden_request !! "X-Secret" = Some ["s3cr3t"]
    /\ Request.Header out !! "X-Secret" = None.
Proof.
  assert (E : exists out,
             outbound (internal.NewProxy samples.default_target)
               samples.laden_request = inl out)
    by (vm_compute; eexists; reflexivity).
  destruct E as [out E]. exists out. split; [exact E|].
  split; [reflexivity|].
  apply (named_in_Connection_is_dropped _ _ _ "x-secret" E).
  - vm_compute. right. left. reflexivity.
  - discriminate.
  - vm_compute. intuition discriminate.
Defined.

(** X8.  Every other header goes through unchanged: a key that is
    neither written by the proxy, nor hop-by-hop, nor named in the
    Connection header has on the outbound request the values it has on
    the inbound one. *)
Theorem end_to_end_headers_pass
    (target : url.URL) (req out : Request.t) (k : string) :
  outbound (internal.NewProxy target) req = inl out ->
  ~ List.In k written_by_proxy ->
  ~ List.In k hopHeaders ->
  (forall name, List.In name (named_by_Connection (Request.Header req)) ->
                textproto.CanonicalMIMEHeaderKey name <> k) ->
  Request.Header out !! k = Request.Header req !! k.
Proof.
  intros Hout Hw Hhop Hnamed.
  rewrite (outbound_lookup target req out _ Hout)
    by exact (not_written_not_hook _ Hw).
  rewrite (header_before_rewrite_lookup req _ Hw).
  rewrite removeHopByHopHeaders_eq. apply foldl_Del_out.
  rewrite map_app. intros [Hin|Hin]%in_app_or.
  - apply in_map_iff in Hin as (name & Hcanon & Hin).
    apply filter_In in Hin as [Hin _]. exact (Hnamed name Hin Hcanon).
  - apply Hhop. exact Hin.
Qed.

(** Accept of the laden request reaches the origin. *)
Lemma end_to_end_headers_pass_witness :
  exists out,
    outbound (internal.NewProxy samples.default_target) samples.laden_request
    = inl out
    /\ Request.Header out !! "Accept" = Some ["*/*"].
Proof.
  assert (E : exists out,
             outbound (internal.NewProxy samples.default_target)
               samples.laden_request = inl out)
    by (vm_compute; eexists; reflexivity).
  destruct E as [out E]. exists out. split; [exact E|].
  rewrite (end_to_end_headers_pass _ _ _ "Accept" E).
  - reflexivity.
  - vm_compute. intuition discriminate.
  - vm_compute. intuition discriminate.
  - intros name Hname. vm_compute in Hname.
    destruct Hname as [<-|[<-|[]]]; discriminate.
Defined.

End engine_headers.

Section engine_urls.
Import http httputil.

(** X9.  When the query of the target parses, the query of every
    outbound request parses: it has no semicolon, and each percent
    sign in it is followed by two hexadecimal digits, whatever the
    client sent. *)
Theorem outbound_query_parses (target : url.URL) (req out : Request.t) :
  outbound (internal.NewProxy target) req = inl out ->
  parsable (url.RawQuery target) = true ->
  parsable (url.RawQuery (Request.URL out)) = true.
Proof.
  intros Hout Htarget. rewrite (outbound_URL target req out Hout).
  cbn [url.RawQuery with_RawQuery].
  pose proof (parsable_cleanQueryParams (url.RawQuery (Request.URL req)))
    as Hclean.
  destruct (_ || _).
  - apply parsable_app; assumption.
  - apply parsable_app; [exact Htarget|].
    apply (parsable_app "&"); [reflexivity | exact Hclean].
Qed.

(** [GET /search?a=1;b=2&c=3] goes to the prefixed target with the
    query "key=1&c=3". *)
Lemma outbound_query_parses_witness :
  exists out,
    outbound (internal.NewProxy samples.prefixed_target)
      samples.search_request = inl out
    /\ parsable (url.RawQuery (Request.URL samples.search_request)) = false
    /\ parsable (url.RawQuery (Request.URL out)) = true.
Proof.
  assert (E : exists out,
             outbound (internal.NewProxy samples.prefixed_target)
               samples.search_request = inl out)
    by (vm_compute; eexists; reflexivity).
  destruct E as [out E]. exists out. split; [exact E|].
  split; [reflexivity|].
  apply (outbound_query_parses _ _ _ E). reflexivity.
Defined.

(** X10.  With a target that has a path prefix, with or without a
    slash at its end, the outbound path is the prefix, one slash, and
    the inbound path without its leading slash (neither URL having a
    raw path of its own). *)
Theorem path_prefix_is_joined_by_one_slash
    (target : url.URL) (req out : Request.t) (base rest : string) :
  outbound (internal.NewProxy target) req = inl out ->
  url.RawPath target = "" ->
  url.RawPath (Request.URL req) = "" ->
  strings.HasSuffix base "/" = false ->
  url.Path target = base \/ url.Path target = base +:+ "/" ->
  url.Path (Request.URL req) = String "/" rest ->
  url.Path (Request.URL out) = base +:+ "/" +:+ rest.
Proof.
  intros Hout Hrt Hrr Hbase Htarget Hreq.
  rewrite (outbound_URL target req out Hout). cbn [url.Path].
  unfold joinURLPath. rewrite Hrt.
  change (url.RawPath (with_RawQuery ?u _)) with (url.RawPath u).
  change (url.Path (with_RawQuery ?u _)) with (url.Path u).
  rewrite Hrr, Hreq. cbn [String.eqb andb fst].
  unfold singleJoiningSlash.
  destruct Htarget as [-> | ->].
  - rewrite Hbase. reflexivity.
  - rewrite HasSuffix_slash. cbn [strings.HasPrefix Ascii.eqb andb strings.tail].
    change (strings.HasPrefix (String "/" rest) "/") with true.
    cbn [andb strings.tail].
    symmetry. apply (append_assoc base "/" rest).
Qed.

(** [/v1/items] behind the prefix "/api". *)
Lemma path_prefix_is_joined_by_one_slash_witness :
  exists out,
    outbound (internal.NewProxy samples.prefixed_target) samples.laden_request
    = inl out
    /\ url.Path (Request.URL out) = "/api/v1/items".
Proof.
  assert (E : exists out,
             outbound (internal.NewProxy samples.prefixed_target)
               samples.laden_request = inl out)
    by (vm_compute; eexists; reflexivity).
  destruct E as [out E]. exists out. split; [exact E|].
  apply (path_prefix_is_joined_by_one_slash _ _ _ "/api" "v1/items" E);
    try reflexivity.
  left. reflexivity.
Defined.

Lemma WriteHeader_final (rw : ResponseWriter.t) (code : Z) :
  ResponseWriter.status rw = None ->
  200 <= code ->
  ResponseWriter.status (ResponseWriter.WriteHeader rw code) = Some code
  /\ ResponseWriter.body (ResponseWriter.WriteHeader rw code)
     = ResponseWriter.body rw.
Proof.
  intros Hnone Hcode. unfold ResponseWriter.WriteHeader. rewrite Hnone.
  destruct (Z.leb_spec code 199); [lia|].
  rewrite andb_false_r. split; reflexivity.
Qed.

Lemma copyResponse_writer (rw : ResponseWriter.t) (res : Response.t)
    (interval : time.Duration) (code : Z) :
  ResponseWriter.status rw = Some code ->
  let rw' := (copyResponse rw res interval).1.1.1 in
  ResponseWriter.status rw' = Some code
  /\ ResponseWriter.Header rw' = ResponseWriter.Header rw
  /\ ResponseWriter.body rw' = ResponseWriter.body rw +:+ body_bytes res
  /\ (copyResponse rw res interval).2 = Response.BodyErr res.
Proof.
  intros Hcode. rewrite copyResponse_eq. cbv zeta. cbn [fst snd].
  match goal with
  | |- context [copyBuffer ?l ?q ?n ?w ?cs] =>
      destruct (copyBuffer_writer l cs q n w) as (Hh & Hb & Hs)
  end.
  split; [exact (Hs code Hcode)|]. split; [exact Hh|].
  split; [exact Hb | reflexivity].
Qed.

(** X11.  When the round trip succeeds with a response whose status
    code is from 200 to 999, and the body is read to its end without
    an error, the handler answers on a fresh writer with the origin's
    status code and the bytes of the origin's body, logs nothing and
    does not panic. *)
Theorem origin_response_is_relayed
    `{RoundTripper} `{Upgrader} `{mime.MediaTypes}
    (default_transport : Transport.t)
    (target : url.URL) (req out : Request.t) (res : Response.t) :
  outbound (internal.NewProxy target) req = inl out ->
  RoundTrip
    (default default_transport (Transport (internal.NewProxy target)))
    out = inl res ->
  200 <= Response.StatusCode res <= 999 ->
  Response.BodyErr res = None ->
  let r := ServeHTTP default_transport (internal.NewProxy target)
             ResponseWriter.fresh req in
  ResponseWriter.status (writer r) = Some (Response.StatusCode res)
  /\ ResponseWriter.body (writer r) = body_bytes res
  /\ logged r = []
  /\ panicked r = None.
Proof.
  intros Hout Hrt Hrange Heof r. subst r. unfold ServeHTTP.
  rewrite Hout, Hrt.
  destruct (Z.eqb_spec (Response.StatusCode res) StatusSwitchingProtocols)
    as [Heq|_]; [unfold StatusSwitchingProtocols in Heq; lia|].
  unfold relay. cbv zeta. rewrite WriteHeader_panics_with_Header.
  change (Response.StatusCode (received res)) with (Response.StatusCode res).
  change (Response.Trailer (received res)) with (Response.Trailer res).
  unfold ResponseWriter.WriteHeader_panics, checkWriteHeaderCode.
  cbn [ResponseWriter.fresh ResponseWriter.status].
  destruct (Z.leb_spec 100 (Response.StatusCode res)); [|lia].
  destruct (Z.leb_spec (Response.StatusCode res) 999); [|lia].
  cbn [andb negb].
  match goal with
  | |- context [copyResponse (ResponseWriter.WriteHeader ?w ?code)
                  (received res) ?i] =>
      destruct (WriteHeader_final w code eq_refl (proj1 Hrange))
        as [Hstatus Hbody];
      destruct (copyResponse_writer (ResponseWriter.WriteHeader w code)
                  (received res) i code Hstatus) as (Hs & _ & Hb & He);
      rewrite Hbody in Hb;
      change (body_bytes (received res)) with (body_bytes res) in Hb;
      change (Response.BodyErr (received res)) with (Response.BodyErr res)
        in He;
      destruct (copyResponse (ResponseWriter.WriteHeader w code)
                  (received res) i)
        as [[[rw' evs] now] err]
  end.
  cbn [fst snd] in *. subst err. rewrite Heof.
  cbn [writer logged panicked ResponseWriter.with_Header
       ResponseWriter.status ResponseWriter.body].
  rewrite Hs, Hb. repeat split.
Qed.

(** The origin that answers 200 with four bytes. *)
Lemma origin_response_is_relayed_witness :
  let r := @ServeHTTP samples.dripping_origin samples.no_upgrade
             samples.no_types samples.DefaultTransport
             (internal.NewProxy samples.default_target)
             ResponseWriter.fresh samples.plain_request in
  ResponseWriter.status (writer r) = Some 200
  /\ ResponseWriter.body (writer r) = "****"
  /\ logged r = []
  /\ panicked r = None.
Proof.
  assert (E : exists out,
             outbound (internal.NewProxy samples.default_target)
               samples.plain_request = inl out)
    by (vm_compute; eexists; reflexivity).
  destruct E as [out E].
  apply (@origin_response_is_relayed samples.dripping_origin
           samples.no_upgrade samples.no_types samples.DefaultTransport
           samples.default_target samples.plain_request out
           samples.drip_response E).
  - reflexivity.
  - split; discriminate.
  - reflexivity.
Defined.

(** X22.  When the origin answers with a status code below 100 or
    above 999, [WriteHeader] refuses it: the handler panics with
    "invalid WriteHeader code", and no status, no body and nothing of
    the copy is written; nothing is logged by the proxy. *)
Theorem odd_status_panics
    `{RoundTripper} `{Upgrader} `{mime.MediaTypes}
    (default_transport : Transport.t)
    (target : url.URL) (req out : Request.t) (res : Response.t) :
  outbound (internal.NewProxy target) req = inl out ->
  RoundTrip
    (default default_transport (Transport (internal.NewProxy target)))
    out = inl res ->
  Response.StatusCode res < 100 \/ 999 < Response.StatusCode res ->
  let r := ServeHTTP default_transport (internal.NewProxy target)
             ResponseWriter.fresh req in
  panicked r = Some (InvalidWriteHeaderCode (Response.StatusCode res))
  /\ ResponseWriter.status (writer r) = None
  /\ ResponseWriter.body (writer r) = ""
  /\ copied r = []
  /\ logged r = [].
Proof.
  intros Hout Hrt Hodd r. subst r. unfold ServeHTTP.
  rewrite Hout, Hrt.
  destruct (Z.eqb_spec (Response.StatusCode res) StatusSwitchingProtocols)
    as [Heq|_]; [unfold StatusSwitchingProtocols in Heq; lia|].
  unfold relay. cbv zeta. rewrite WriteHeader_panics_with_Header.
  change (Response.StatusCode (received res)) with (Response.StatusCode res).
  unfold ResponseWriter.WriteHeader_panics, checkWriteHeaderCode.
  cbn [ResponseWriter.fresh ResponseWriter.status].
  destruct (Z.leb_spec 100 (Response.StatusCode res));
    destruct (Z.leb_spec (Response.StatusCode res) 999);
    try lia; repeat split.
Qed.

(** The status line "HTTP/1.1 099". *)
Lemma odd_status_panics_witness :
  let r := @ServeHTTP samples.odd_origin samples.no_upgrade
             samples.no_types samples.DefaultTransport
             (internal.NewProxy samples.default_target)
             ResponseWriter.fresh samples.plain_request in
  panicked r = Some (InvalidWriteHeaderCode 99)
  /\ ResponseWriter.status (writer r) = None
  /\ ResponseWriter.body (writer r) = ""
  /\ copied r = []
  /\ logged r = [].
Proof.
  assert (E : exists out,
             outbound (internal.NewProxy samples.default_target)
               samples.plain_request = inl out)
    by (vm_compute; eexists; reflexivity).
  destruct E as [out E].
  apply (@odd_status_panics samples.odd_origin
           samples.no_upgrade samples.no_types samples.DefaultTransport
           samples.default_target samples.plain_request out
           samples.odd_response E).
  - reflexivity.
  - left. reflexivity.
Defined.

(** X23.  When a read of the origin's body fails, the handler has
    written the origin's status and the bytes read before the failure,
    each read when it returned; it logs the read error, unless that is
    [context.Canceled], and aborts with [panic(http.ErrAbortHandler)]. *)
Theorem body_read_error_aborts
    `{RoundTripper} `{Upgrader} `{mime.MediaTypes}
    (default_transport : Transport.t)
    (target : url.URL) (req out : Request.t) (res : Response.t)
    (e : error_value) :
  outbound (internal.NewProxy target) req = inl out ->
  RoundTrip
    (default default_transport (Transport (internal.NewProxy target)))
    out = inl res ->
  200 <= Response.StatusCode res <= 999 ->
  Response.BodyErr res = Some e ->
  let r := ServeHTTP default_transport (internal.NewProxy target)
             ResponseWriter.fresh req in
  panicked r = Some ErrAbortHandler
  /\ ResponseWriter.status (writer r) = Some (Response.StatusCode res)
  /\ ResponseWriter.body (writer r) = body_bytes res
  /\ logged r = match e with Canceled => [] | _ => [ErrBodyCopy e] end
  /\ List.filter is_Wrote (copied r) = arrivals 0 (Response.Body res).
Proof.
  intros Hout Hrt Hrange Herr r. subst r. unfold ServeHTTP.
  rewrite Hout, Hrt.
  destruct (Z.eqb_spec (Response.StatusCode res) StatusSwitchingProtocols)
    as [Heq|_]; [unfold StatusSwitchingProtocols in Heq; lia|].
  unfold relay. cbv zeta. rewrite WriteHeader_panics_with_Header.
  change (Response.StatusCode (received res)) with (Response.StatusCode res).
  change (Response.Trailer (received res)) with (Response.Trailer res).
  unfold ResponseWriter.WriteHeader_panics, checkWriteHeaderCode.
  cbn [ResponseWriter.fresh ResponseWriter.status].
  destruct (Z.leb_spec 100 (Response.StatusCode res)); [|lia].
  destruct (Z.leb_spec (Response.StatusCode res) 999); [|lia].
  cbn [andb negb].
  match goal with
  | |- context [copyResponse (ResponseWriter.WriteHeader ?w ?code)
                  (received res) ?i] =>
      destruct (WriteHeader_final w code eq_refl (proj1 Hrange))
        as [Hstatus Hbody];
      destruct (copyResponse_writer (ResponseWriter.WriteHeader w code)
                  (received res) i code Hstatus) as (Hs & _ & Hb & He);
      rewrite Hbody in Hb;
      change (body_bytes (received res)) with (body_bytes res) in Hb;
      change (Response.BodyErr (received res)) with (Response.BodyErr res)
        in He;
      pose proof (copyResponse_writes (ResponseWriter.WriteHeader w code)
                    (received res) i) as Hw;
      change (Response.Body (received res)) with (Response.Body res) in Hw;
      destruct (copyResponse (ResponseWriter.WriteHeader w code)
                  (received res) i)
        as [[[rw' evs] now] err]
  end.
  cbn [fst snd] in *. subst err. rewrite Herr.
  cbn [writer logged panicked copied]. rewrite Hs, Hb, Hw. repeat split.
Qed.

(** The origin that goes away after two of four bytes. *)
Lemma body_read_error_aborts_witness :
  let r := @ServeHTTP samples.breaking_origin samples.no_upgrade
             samples.no_types samples.DefaultTransport
             (internal.NewProxy samples.default_target)
             ResponseWriter.fresh samples.plain_request in
  panicked r = Some ErrAbortHandler
  /\ ResponseWriter.status (writer r) = Some 200
  /\ ResponseWriter.body (writer r) = "**"
  /\ logged r = [ErrBodyCopy (errorString "unexpected EOF")]
  /\ List.filter is_Wrote (copied r)
     = [Wrote (1 * time.Second) "*"; Wrote (2 * time.Second) "*"].
Proof.
  assert (E : exists out,
             outbound (internal.NewProxy samples.default_target)
               samples.plain_request = inl out)
    by (vm_compute; eexists; reflexivity).
  destruct E as [out E].
  apply (@body_read_error_aborts samples.breaking_origin
           samples.no_upgrade samples.no_types samples.DefaultTransport
           samples.default_target samples.plain_request out
           samples.broken_response (errorString "unexpected EOF") E).
  - reflexivity.
  - split; discriminate.
  - reflexivity.
Defined.

End engine_urls.

(** ** More on the server lifecycle *)

Section lifecycle_more.
Import http.

Lemma Sprintf_failed (m : string) :
  fmt.Sprintf "failed to create listener: %s" [m]
  = "failed to create listener: " +:+ m.
Proof.
  change (fmt.Sprintf "failed to create listener: %s" [m])
    with ("failed to create listener: " +:+ (m +:+ "")).
  now rewrite append_empty_r.
Qed.

(** X12.  When the system refuses the address, [Listen] returns an
    error whose message is "failed to create listener: " followed by
    the system's message, and leaves the server as it was; a server
    that had no listener still answers [Serve] with the precondition
    error. *)
Theorem Listen_failure_leaves_the_server `{net.Network}
    (s : internal.Server) (address : string) (err : error_value) :
  net.Listen "tcp" address = inr err ->
  (exists e : error_value,
      internal.Listen s address = (Some e, s)
      /\ Error e = "failed to create listener: " +:+ Error err)
  /\ (internal.listener s = None ->
      forall evs : list accept_event,
      exists e : error_value,
        fst (internal.Serve (snd (internal.Listen s address)) evs)
        = Returned (Some e)
        /\ Error e = "must call Listen() before Serve()").
Proof.
  intros Hlisten. unfold internal.Listen. rewrite Hlisten. split.
  - eexists. split; [reflexivity|]. apply Sprintf_failed.
  - intros Hnil evs. cbn [snd]. unfold internal.Serve. rewrite Hnil.
    eexists. split; reflexivity.
Qed.

(** The address is in use. *)
Lemma Listen_failure_leaves_the_server_witness :
  exists e : error_value,
    @internal.Listen samples.port_taken
      (internal.NewServer samples.default_target) ":80"
    = (Some e, internal.NewServer samples.default_target)
    /\ Error e = "failed to create listener: listen tcp :80: bind: address already in use".
Proof.
  apply (proj1 (@Listen_failure_leaves_the_server samples.port_taken
                  (internal.NewServer samples.default_target) ":80"
                  (OpError "listen tcp :80: bind: address already in use"
                     false)
                  eq_refl)).
Defined.

(** X13.  A second [Listen] that succeeds replaces the stored listener
    by the new one, and a second [Listen] that fails keeps the first;
    the http server is the same throughout. *)
Theorem second_Listen_replaces_the_listener `{net.Network}
    (s : internal.Server) (first second : string) :
  let s1 := snd (internal.Listen s first) in
  let s2 := snd (internal.Listen s1 second) in
  internal.listener s2
  = match net.Listen "tcp" second with
    | inl l2 => Some l2
    | inr _ => internal.listener s1
    end
  /\ internal.srv s2 = internal.srv s.
Proof.
  cbv zeta. unfold internal.Listen.
  destruct (net.Listen "tcp" first), (net.Listen "tcp" second);
    split; reflexivity.
Qed.

(** What the accept loop can end with. *)
Lemma accept_loop_returns {H : Type} (server server' : Server.t H)
    (evs : list accept_event) (e : error) :
  accept_loop server evs = (Returned e, server') ->
  e = Some ErrServerClosed /\ List.In ShutdownCalled evs
  \/ exists err, e = Some err /\ List.In (AcceptFailed err) evs
                 /\ Temporary err = false.
Proof.
  induction evs as [|ev evs IH]; simpl; [discriminate|].
  destruct ev as [|err|].
  - intros Hloop. destruct (IH Hloop) as [[He Hin]|(err & He & Hin & Ht)].
    + left. tauto.
    + right. exists err. tauto.
  - destruct (Temporary err) eqn:Ht.
    + intros Hloop.
      destruct (IH Hloop) as [[He Hin]|(err' & He & Hin & Ht')].
      * left. tauto.
      * right. exists err'. tauto.
    + intros [= <- _]. right. exists err. tauto.
  - intros [= <- _]. left. tauto.
Qed.

(** X14.  [Serve] returns for three reasons only, each with an error:
    the listener is missing; the server is shutting down, flagged
    before or by a [Shutdown] during the loop, and the error is
    [http.ErrServerClosed]; or [Accept] failed with an error that is
    not temporary, and that error is returned. *)
Theorem Serve_returns_only_with_an_error
    (s s' : internal.Server) (evs : list accept_event) (e : error) :
  internal.Serve s evs = (Returned e, s') ->
  (internal.listener s = None
   /\ e = Some (errorString "must call Listen() before Serve()"))
  \/ (e = Some ErrServerClosed
      /\ ((exists h, internal.srv s = Some h /\ Server.inShutdown h = true)
          \/ List.In ShutdownCalled evs))
  \/ (exists err, e = Some err /\ List.In (AcceptFailed err) evs
                  /\ Temporary err = false).
Proof.
  unfold internal.Serve, internal.srv_Serve.
  destruct (internal.listener s) as [l|].
  - destruct (internal.srv s) as [h|]; [|discriminate].
    unfold Serve. destruct (Server.inShutdown h) eqn:Hflag.
    + intros [= <- _]. right. left. split; [reflexivity|].
      left. exists h. tauto.
    + destruct (accept_loop h evs) as [r h'] eqn:Hloop.
      intros [= -> _].
      destruct (accept_loop_returns _ _ _ _ Hloop) as [[He Hin]|Hperm].
      * right. left. tauto.
      * right. right. exact Hperm.
  - intros [= <- _]. left. split; reflexivity.
Qed.

(** The bound server whose [Accept] fails for good. *)
Lemma Serve_returns_only_with_an_error_witness :
  exists err,
    Some samples.accept_broken = Some err
    /\ List.In (AcceptFailed err) [Accepted; AcceptFailed samples.accept_broken]
    /\ Temporary err = false.
Proof.
  destruct (Serve_returns_only_with_an_error samples.bound_server
              (snd (internal.Serve samples.bound_server
                      [Accepted; AcceptFailed samples.accept_broken]))
              [Accepted; AcceptFailed samples.accept_broken]
              (Some samples.accept_broken) eq_refl)
    as [[Hnil _]|[[Hclosed _]|Hperm]].
  - discriminate Hnil.
  - discriminate Hclosed.
  - exact Hperm.
Defined.

Lemma accept_loop_goes_on {H : Type} (server : Server.t H)
    (pre rest : list accept_event) :
  forallb keeps_serving pre = true ->
  accept_loop server (pre ++ rest) = accept_loop server rest.
Proof.
  induction pre as [|ev pre IH]; [reflexivity|].
  simpl. intros [Hev Hpre]%andb_prop.
  destruct ev as [|err|]; simpl in Hev; [exact (IH Hpre) | | discriminate].
  rewrite Hev. exact (IH Hpre).
Qed.

(** X15.  On a bound server that is not shutting down, connections
    and temporary failures of [Accept] do not end [Serve]: it is still
    serving after any number of them, and the first failure that is
    not temporary is the error it returns. *)
Theorem Serve_survives_temporary_failures
    (s : internal.Server) (l : net.Listener)
    (h : Server.t httputil.ReverseProxy) (pre : list accept_event) :
  internal.listener s = Some l ->
  internal.srv s = Some h ->
  Server.inShutdown h = false ->
  forallb keeps_serving pre = true ->
  internal.Serve s pre = (Blocked, s)
  /\ forall (err : error_value) (later : list accept_event),
      Temporary err = false ->
      internal.Serve s (pre ++ AcceptFailed err :: later)
      = (Returned (Some err), s).
Proof.
  intros Hl Hh Hflag Hpre.
  unfold internal.Serve, internal.srv_Serve, Serve.
  rewrite Hl, Hh, Hflag. split.
  - rewrite <- (app_nil_r pre), (accept_loop_goes_on h pre [] Hpre).
    simpl. destruct s; simpl in *; subst; reflexivity.
  - intros err later Hperm.
    rewrite (accept_loop_goes_on h pre _ Hpre). simpl. rewrite Hperm.
    destruct s; simpl in *; subst; reflexivity.
Qed.

(** A connection, "too many open files", another connection; then an
    invalid listener. *)
Lemma Serve_survives_temporary_failures_witness :
  fst (internal.Serve samples.bound_server
         [Accepted; AcceptFailed samples.accept_busy; Accepted])
  = Blocked
  /\ fst (internal.Serve samples.bound_server
            ([Accepted; AcceptFailed samples.accept_busy; Accepted]
             ++ [AcceptFailed samples.accept_broken]))
     = Returned (Some samples.accept_broken).
Proof.
  destruct (Serve_survives_temporary_failures samples.bound_server
              {| net.Addr := "127.0.0.1:43521" |}
              {| Server.Handler := internal.NewProxy samples.default_target;
                 Server.ReadTimeout := 5 * time.Second;
                 Server.WriteTimeout := 10 * time.Second;
                 Server.IdleTimeout := 30 * time.Second;
                 Server.ReadHeaderTimeout := 2 * time.Second;
                 Server.inShutdown := false |}
              [Accepted; AcceptFailed samples.accept_busy; Accepted]
              eq_refl eq_refl eq_refl eq_refl) as [Hon Hoff].
  split.
  - rewrite Hon. reflexivity.
  - rewrite (Hoff samples.accept_broken [] eq_refl). reflexivity.
Defined.

End lifecycle_more.

Section shutdown.
Import http.









(** What four calls of [Shutdown] on the bound server return, in
    nanoseconds: with nothing open and a context cancelled already;
    with a connection open and that context; with connections busy
    for 9.9 s, during which the deadline passes before the next poll;
    and with a caller who cancels after two seconds. *)
Example Shutdown_runs :
  fst (@internal.ShutdownContext samples.some_jitter samples.bound_server
         (context.DoneAfter (-1) Canceled) 0 None)
  = Returned (None, 0)
  /\ fst (@internal.ShutdownContext samples.some_jitter samples.bound_server
            (context.DoneAfter (-1) Canceled) 1 None)
     = Returned (Some Canceled, 0)
  /\ fst (@internal.ShutdownContext samples.no_jitter samples.bound_server
            context.Background (9900 * time.Millisecond) None)
     = Returned (Some DeadlineExceeded, 10000000000)
  /\ fst (@internal.ShutdownContext samples.some_jitter samples.bound_server
            (context.DoneAfter (2 * time.Second) Canceled)
            (11 * time.Second) None)
     = Returned (Some Canceled, 2000000000).
Proof. repeat split; vm_compute; reflexivity. Qed.

(** The server that [Shutdown] leaves. *)
Lemma Shutdown_server `{rand.Source} (s : internal.Server)
    (ctx : option time.Duration) (drain : time.Duration) :
  snd (internal.Shutdown s ctx drain)
  = match internal.srv s with
    | None => s
    | Some h =>
        {| internal.srv := Some (Server.shutting_down h);
           internal.listener := internal.listener s |}
    end.
Proof.
  unfold internal.Shutdown, internal.ShutdownContext.
  destruct (internal.srv s); reflexivity.
Qed.

(** X17.  A server on which [Shutdown] has run does not serve again:
    [Serve] on its listener, and [ListenAndServe] on an address that
    the system grants, return [http.ErrServerClosed] at once, whatever
    the accept loop would see. *)
Theorem no_Serve_after_Shutdown `{net.Network} `{rand.Source}
    (s : internal.Server) (h : Server.t httputil.ReverseProxy)
    (ctx : option time.Duration) (drain : time.Duration)
    (evs : list accept_event) :
  internal.srv s = Some h ->
  let s' := snd (internal.Shutdown s ctx drain) in
  (internal.listener s <> None ->
   fst (internal.Serve s' evs) = Returned (Some ErrServerClosed))
  /\ (forall (address : string) (l : net.Listener),
        net.Listen "tcp" address = inl l ->
        fst (internal.ListenAndServe s' address evs)
        = Returned (Some ErrServerClosed)).
Proof.
  intros Hh. cbv zeta. rewrite Shutdown_server, Hh. split.
  - intros Hl. unfold internal.Serve, internal.srv_Serve.
    cbn [internal.listener internal.srv].
    destruct (internal.listener s) as [l|]; [reflexivity | contradiction].
  - intros address l Hlisten.
    unfold internal.ListenAndServe, internal.Listen. rewrite Hlisten.
    reflexivity.
Qed.

(** The bound server, shut down and asked to serve again. *)
Lemma no_Serve_after_Shutdown_witness :
  fst (internal.Serve
         (snd (@internal.Shutdown samples.no_jitter
                 samples.bound_server None 0))
         [Accepted; Accepted])
  = Returned (Some ErrServerClosed).
Proof.
  apply (proj1 (@no_Serve_after_Shutdown samples.free_ports
                  samples.no_jitter samples.bound_server _ None 0
                  [Accepted; Accepted] eq_refl)).
  discriminate.
Defined.

(** X18.  On a server whose [srv] pointer is nil, as in the zero value
    of [Server], [Shutdown] panics with a nil dereference, and
    [ListenAndServe] panics after it has bound the address and stored
    the listener. *)
Theorem nil_srv_panics `{net.Network} `{rand.Source}
    (s : internal.Server) (ctx : option time.Duration)
    (drain : time.Duration) (evs : list accept_event) :
  internal.srv s = None ->
  internal.Shutdown s ctx drain = (Panicked nil_dereference, s)
  /\ (forall (address : string) (l : net.Listener),
        net.Listen "tcp" address = inl l ->
        internal.ListenAndServe s address evs
        = (Panicked nil_dereference,
           {| internal.srv := None; internal.listener := Some l |})).
Proof.
  intros Hnil. split.
  - unfold internal.Shutdown, internal.ShutdownContext. rewrite Hnil.
    reflexivity.
  - intros address l Hlisten.
    unfold internal.ListenAndServe, internal.Listen. rewrite Hlisten.
    unfold internal.srv_Serve. cbn [internal.srv internal.listener].
    rewrite Hnil. reflexivity.
Qed.

(** The zero value of [Server]. *)
Lemma nil_srv_panics_witness :
  @internal.Shutdown samples.no_jitter samples.zero_Server None 0
  = (Panicked nil_dereference, samples.zero_Server)
  /\ @internal.ListenAndServe samples.free_ports samples.zero_Server
       "127.0.0.1:0" []
     = (Panicked nil_dereference,
        {| internal.srv := None;
           internal.listener := Some {| net.Addr := "127.0.0.1:43521" |} |}).
Proof.
  destruct (@nil_srv_panics samples.free_ports samples.no_jitter
              samples.zero_Server None 0 [] eq_refl) as [Hshut Hserve].
  split; [exact Hshut|].
  apply (Hserve "127.0.0.1:0"). reflexivity.
Defined.

Lemma accept_loop_outcome {H : Type} (server : Server.t H)
    (evs : list accept_event) :
  fst (accept_loop server evs) = Blocked
  \/ exists e, fst (accept_loop server evs) = Returned (Some e).
Proof.
  induction evs as [|ev evs IH]; simpl; [left; reflexivity|].
  destruct ev as [|err|]; [exact IH | | right; eexists; reflexivity].
  destruct (Temporary err); [exact IH | right; eexists; reflexivity].
Qed.

(** X19.  [main] never ends with "Server stopped cleanly" and status
    0: for every target, address, answer of the system and course of
    the accept loop, the process exits with status 1 or is still
    serving. *)
Theorem main_never_exits_cleanly `{net.Network}
    (target : url.URL) (address : string) (evs : list accept_event) :
  main.exit_status target address evs = Returned 1
  \/ main.exit_status target address evs = Blocked.
Proof.
  unfold main.exit_status, internal.ListenAndServe, internal.Listen.
  destruct (net.Listen "tcp" address) as [l|err]; [|left; reflexivity].
  unfold internal.srv_Serve, internal.NewServer, Serve.
  cbn [internal.srv internal.listener Server.inShutdown].
  match goal with
  | |- context [accept_loop ?h evs] =>
      destruct (accept_loop_outcome h evs) as [Hb|[e He]];
      destruct (accept_loop h evs) as [r h']
  end; cbn [fst] in *; subst r.
  - right. reflexivity.
  - left. reflexivity.
Qed.

(** X20.  [Serve] and [Shutdown] never change the stored listener, so
    [URL] answers after them what it answered before. *)
Theorem Serve_and_Shutdown_keep_the_listener `{rand.Source}
    (s : internal.Server) (evs : list accept_event)
    (ctx : option time.Duration) (drain : time.Duration) :
  internal.listener (snd (internal.Serve s evs)) = internal.listener s
  /\ internal.listener (snd (internal.Shutdown s ctx drain))
     = internal.listener s
  /\ internal.URL (snd (internal.Serve s evs)) = internal.URL s
  /\ internal.URL (snd (internal.Shutdown s ctx drain)) = internal.URL s.
Proof.
  assert (Hserve : internal.listener (snd (internal.Serve s evs))
                   = internal.listener s).
  { unfold internal.Serve, internal.srv_Serve.
    destruct (internal.listener s) as [l|] eqn:Hl; [|exact Hl].
    destruct (internal.srv s) as [h|]; [|exact Hl].
    destruct (Serve h l evs). reflexivity. }
  assert (Hshut : internal.listener (snd (internal.Shutdown s ctx drain))
                  = internal.listener s).
  { rewrite Shutdown_server.
    destruct (internal.srv s) as [h|]; reflexivity. }
  unfold internal.URL. rewrite Hserve, Hshut. tauto.
Qed.

End shutdown.

Section upgrade.
Import http httputil.

(** X21.  A request that asks to switch to a protocol whose name is
    not printable ASCII is answered with 502 Bad Gateway on a writer on
    which no response has started, with the header and body untouched,
    and the answer is the same whatever the origin would do: no round
    trip decides it. *)
Theorem invalid_upgrade_is_bad_gateway
    (origin origin' : RoundTripper) `{Upgrader} `{mime.MediaTypes}
    (default_transport : Transport.t)
    (target : url.URL) (rw : ResponseWriter.t) (req : Request.t) :
  IsPrint (upgradeType (Request.Header req)) = false ->
  ResponseWriter.status rw = None ->
  let r := @ServeHTTP origin _ _ default_transport
             (internal.NewProxy target) rw req in
  ResponseWriter.status (writer r) = Some 502
  /\ ResponseWriter.body (writer r) = ResponseWriter.body rw
  /\ ResponseWriter.Header (writer r) = ResponseWriter.Header rw
  /\ logged r = [ErrInvalidProtocol (upgradeType (Request.Header req))]
  /\ r = @ServeHTTP origin' _ _ default_transport
           (internal.NewProxy target) rw req.
Proof.
  intros Hbad Hfresh r. subst r. unfold ServeHTTP.
  rewrite outbound_eq, Hbad. cbn [negb].
  unfold getErrorHandler, internal.NewProxy. cbn [ErrorHandler].
  unfold defaultErrorHandler. cbn [writer logged].
  unfold ResponseWriter.WriteHeader. rewrite Hfresh.
  repeat split.
Qed.

(** "Upgrade: w\001s" is answered 502 by a proxy whose origin would
    answer 200. *)
Lemma invalid_upgrade_is_bad_gateway_witness :
  let r := @ServeHTTP samples.dripping_origin samples.no_upgrade
             samples.no_types samples.DefaultTransport
             (internal.NewProxy samples.default_target)
             ResponseWriter.fresh samples.bad_upgrade_request in
  ResponseWriter.status (writer r) = Some 502
  /\ ResponseWriter.body (writer r) = ""
  /\ ResponseWriter.Header (writer r) = ∅
  /\ logged r = [ErrInvalidProtocol (String "w" (String "001" "s"))]
  /\ r = @ServeHTTP samples.no_origin samples.no_upgrade
           samples.no_types samples.DefaultTransport
           (internal.NewProxy samples.default_target)
           ResponseWriter.fresh samples.bad_upgrade_request.
Proof.
  apply (@invalid_upgrade_is_bad_gateway samples.dripping_origin
           samples.no_origin samples.no_upgrade samples.no_types
           samples.DefaultTransport
           samples.default_target ResponseWriter.fresh
           samples.bad_upgrade_request);
    reflexivity.
Defined.

End upgrade.
